(** * Things service: the two-tier authorization cache

    A shallow embedding of [things/service.go] (package [things]) and the
    properties of its authorization read path ([CanAccess], [Identify],
    [hasThing]) and of the mutation paths that invalidate the caches
    ([Disconnect], [RemoveThing], [RemoveChannel]).

    The service is a struct of five collaborators reached through Go
    interfaces.  Every collaborator call is a state transformer on a world
    [W] that the service never inspects; the service methods run in a small
    state-and-log monad that threads the world and records, in order, each
    collaborator call together with what it returned. *)

From stdpp Require Import base strings list gmap.

Open Scope string_scope.
Open Scope list_scope.

(** ** Errors

    The four package-level error values of [service.go]; any other Go
    [error] a collaborator may return (a driver or network failure) is
    [ErrOther]. *)
Inductive error : Type :=
| ErrMalformedEntity
| ErrUnauthorizedAccess
| ErrNotFound
| ErrConflict
| ErrOther (msg : string).

#[global] Instance error_eq_dec : EqDecision error.
Proof. solve_decision. Defined.

(** A Go [(string, error)] result: the error is [None] for [nil]. *)
Definition result : Type := string * option error.

(** ** Collaborator interfaces

    Only the methods that [service.go] calls on the paths embedded below;
    signatures are read off the call sites.  A method whose return value the
    service discards is given Go's conventional [error] result. *)

Module UsersServiceClient.
Record t (W : Type) : Type := {
  (* res, err := ts.users.Identify(ctx, &mainflux.Token{Value: token});
     the first component is res.GetValue() *)
  Identify : string -> W -> result * W
}.
Arguments Identify {W} _ _ _.
End UsersServiceClient.

Module ThingRepository.
Record t (W : Type) : Type := {
  UpdateKey : string -> string -> string -> W -> option error * W;
  RetrieveByKey : string -> W -> result * W;
  Remove : string -> string -> W -> option error * W
}.
Arguments UpdateKey {W} _ _ _ _ _.
Arguments RetrieveByKey {W} _ _ _.
Arguments Remove {W} _ _ _ _.
End ThingRepository.

Module ChannelRepository.
Record t (W : Type) : Type := {
  Remove : string -> string -> W -> option error * W;
  Connect : string -> string -> string -> W -> option error * W;
  Disconnect : string -> string -> string -> W -> option error * W;
  HasThing : string -> string -> W -> result * W
}.
Arguments Remove {W} _ _ _ _.
Arguments Connect {W} _ _ _ _ _.
Arguments Disconnect {W} _ _ _ _ _.
Arguments HasThing {W} _ _ _ _.
End ChannelRepository.

Module ChannelCache.
Record t (W : Type) : Type := {
  Connect : string -> string -> W -> option error * W;
  HasThing : string -> string -> W -> bool * W;
  Disconnect : string -> string -> W -> option error * W;
  Remove : string -> W -> option error * W
}.
Arguments Connect {W} _ _ _ _.
Arguments HasThing {W} _ _ _ _.
Arguments Disconnect {W} _ _ _ _.
Arguments Remove {W} _ _ _.
End ChannelCache.

Module ThingCache.
Record t (W : Type) : Type := {
  Save : string -> string -> W -> option error * W;
  ID : string -> W -> result * W;
  Remove : string -> W -> option error * W
}.
Arguments Save {W} _ _ _ _.
Arguments ID {W} _ _ _.
Arguments Remove {W} _ _ _.
End ThingCache.

(** The [thingsService] struct (the identity provider [idp] is used only by
    the create paths and is left out). *)
Record thingsService (W : Type) : Type := {
  users : UsersServiceClient.t W;
  things : ThingRepository.t W;
  channels : ChannelRepository.t W;
  channelCache : ChannelCache.t W;
  thingCache : ThingCache.t W
}.
Arguments users {W} _.
Arguments things {W} _.
Arguments channels {W} _.
Arguments channelCache {W} _.
Arguments thingCache {W} _.

(** ** Call log *)

(** One constructor per collaborator method: its arguments and its result. *)
Inductive event : Type :=
| UsersIdentify (token : string) (res : result)
| ThingsUpdateKey (owner id key : string) (res : option error)
| ThingsRetrieveByKey (key : string) (res : result)
| ThingsRemove (owner id : string) (res : option error)
| ChannelsRemove (owner id : string) (res : option error)
| ChannelsConnect (owner chanID thingID : string) (res : option error)
| ChannelsDisconnect (owner chanID thingID : string) (res : option error)
| ChannelsHasThing (chanID key : string) (res : result)
| ChannelCacheConnect (chanID thingID : string) (res : option error)
| ChannelCacheHasThing (chanID thingID : string) (res : bool)
| ChannelCacheDisconnect (chanID thingID : string) (res : option error)
| ChannelCacheRemove (chanID : string) (res : option error)
| ThingCacheSave (key id : string) (res : option error)
| ThingCacheID (key : string) (res : result)
| ThingCacheRemove (id : string) (res : option error).

#[global] Instance event_eq_dec : EqDecision event.
Proof. solve_decision. Defined.

(** Calls that reach a persistent repository. *)
Definition is_repo_call (e : event) : bool :=
  match e with
  | ThingsUpdateKey _ _ _ _ | ThingsRetrieveByKey _ _ | ThingsRemove _ _ _
  | ChannelsRemove _ _ _ | ChannelsConnect _ _ _ _ | ChannelsDisconnect _ _ _ _
  | ChannelsHasThing _ _ _ => true
  | _ => false
  end.

(** Calls that may change what a cache holds. *)
Definition is_cache_write (e : event) : bool :=
  match e with
  | ChannelCacheConnect _ _ _ | ChannelCacheDisconnect _ _ _
  | ChannelCacheRemove _ _ | ThingCacheSave _ _ _ | ThingCacheRemove _ _ => true
  | _ => false
  end.

(** Calls that remove cache entries. *)
Definition is_invalidation (e : event) : bool :=
  match e with
  | ChannelCacheDisconnect _ _ _ | ChannelCacheRemove _ _
  | ThingCacheRemove _ _ => true
  | _ => false
  end.

(** Repository mutations of the removal paths that came back without
    error. *)
Definition repo_mutation_ok (e : event) : bool :=
  match e with
  | ThingsRemove _ _ None | ChannelsRemove _ _ None
  | ChannelsDisconnect _ _ _ None => true
  | _ => false
  end.

(** A log in which every cache invalidation comes after a repository
    mutation that succeeded. *)
Definition invalidation_after_success (tr : list event) : Prop :=
  forall i inv, tr !! i = Some inv -> is_invalidation inv = true ->
    exists j m, j < i /\ tr !! j = Some m /\ repo_mutation_ok m = true.

(** ** The state-and-log monad *)

Definition M (W A : Type) : Type := W -> A * W * list event.

Definition ret {W A} (a : A) : M W A := fun w => (a, w, []).

Definition bind {W A B} (m : M W A) (k : A -> M W B) : M W B :=
  fun w =>
    let '(a, w1, l1) := m w in
    let '(b, w2, l2) := k a w1 in
    (b, w2, l1 ++ l2).

(** Run one collaborator method and log it with its result. *)
Definition call {W R} (op : W -> R * W) (ev : R -> event) : M W R :=
  fun w => let '(r, w') := op w in (r, w', [ev r]).

Declare Scope svc_scope.
Delimit Scope svc_scope with svc.
Notation "'let*' x := m 'in' k" := (bind m (fun x => k))
  (at level 10, x name, m at level 100, k at level 200,
   only parsing) : svc_scope.
Notation "'let*' ' pat := m 'in' k" :=
  (bind m (fun x => match x with pat => k end))
  (at level 10, pat pattern, m at level 100, k at level 200,
   only parsing) : svc_scope.

(** Projections of a finished run. *)
Definition value {W A} (r : A * W * list event) : A := r.1.1.
Definition world {W A} (r : A * W * list event) : W := r.1.2.
Definition trace {W A} (r : A * W * list event) : list event := r.2.

(** ** The service methods *)

Section Service.
Context {W : Type}.
Variable ts : thingsService W.
Local Open Scope svc_scope.

(** [ts.users.Identify(ctx, &mainflux.Token{Value: token})]: the context
    only carries the one-second deadline; a call that misses it comes back
    as an error like any other. *)
Definition identify (token : string) : M W result :=
  call (UsersServiceClient.Identify (users ts) token) (UsersIdentify token).

Definition UpdateKey (token id key : string) : M W (option error) :=
  let* '(res, err) := identify token in
  match err with
  | Some _ => ret (Some ErrUnauthorizedAccess)
  | None =>
      let owner := res in
      call (ThingRepository.UpdateKey (things ts) owner id key)
           (ThingsUpdateKey owner id key)
  end.

Definition RemoveThing (token id : string) : M W (option error) :=
  let* '(res, err) := identify token in
  match err with
  | Some _ => ret (Some ErrUnauthorizedAccess)
  | None =>
      let* _ := call (ThingCache.Remove (thingCache ts) id)
                     (ThingCacheRemove id) in
      call (ThingRepository.Remove (things ts) res id) (ThingsRemove res id)
  end.

Definition RemoveChannel (token id : string) : M W (option error) :=
  let* '(res, err) := identify token in
  match err with
  | Some _ => ret (Some ErrUnauthorizedAccess)
  | None =>
      let* _ := call (ChannelCache.Remove (channelCache ts) id)
                     (ChannelCacheRemove id) in
      call (ChannelRepository.Remove (channels ts) res id)
           (ChannelsRemove res id)
  end.

Definition Connect (token chanID thingID : string) : M W (option error) :=
  let* '(res, err) := identify token in
  match err with
  | Some _ => ret (Some ErrUnauthorizedAccess)
  | None =>
      call (ChannelRepository.Connect (channels ts) res chanID thingID)
           (ChannelsConnect res chanID thingID)
  end.

Definition Disconnect (token chanID thingID : string) : M W (option error) :=
  let* '(res, err) := identify token in
  match err with
  | Some _ => ret (Some ErrUnauthorizedAccess)
  | None =>
      let* _ := call (ChannelCache.Disconnect (channelCache ts) chanID thingID)
                     (ChannelCacheDisconnect chanID thingID) in
      call (ChannelRepository.Disconnect (channels ts) res chanID thingID)
           (ChannelsDisconnect res chanID thingID)
  end.

Definition hasThing (chanID key : string) : M W result :=
  let* '(thingID, err) := call (ThingCache.ID (thingCache ts) key)
                               (ThingCacheID key) in
  match err with
  | Some e => ret ("", Some e)
  | None =>
      let* connected :=
        call (ChannelCache.HasThing (channelCache ts) chanID thingID)
             (ChannelCacheHasThing chanID thingID) in
      if negb connected then ret ("", Some ErrUnauthorizedAccess)
      else ret (thingID, None)
  end.

Definition CanAccess (chanID key : string) : M W result :=
  let* '(thingID, err) := hasThing chanID key in
  match err with
  | None => ret (thingID, None)
  | Some _ =>
      let* '(thingID, err) :=
        call (ChannelRepository.HasThing (channels ts) chanID key)
             (ChannelsHasThing chanID key) in
      match err with
      | Some _ => ret ("", Some ErrUnauthorizedAccess)
      | None =>
          let* _ := call (ThingCache.Save (thingCache ts) key thingID)
                         (ThingCacheSave key thingID) in
          let* _ := call (ChannelCache.Connect (channelCache ts) chanID thingID)
                         (ChannelCacheConnect chanID thingID) in
          ret (thingID, None)
      end
  end.

Definition Identify (key : string) : M W result :=
  let* '(id, err) := call (ThingCache.ID (thingCache ts) key)
                          (ThingCacheID key) in
  match err with
  | None => ret (id, None)
  | Some _ =>
      let* '(id, err) := call (ThingRepository.RetrieveByKey (things ts) key)
                              (ThingsRetrieveByKey key) in
      match err with
      | Some _ => ret ("", Some ErrUnauthorizedAccess)
      | None =>
          let* _ := call (ThingCache.Save (thingCache ts) key id)
                         (ThingCacheSave key id) in
          ret (id, None)
      end
  end.

End Service.

(** ** Reference collaborators

    Concrete caches, repositories and users service on which the service can
    be run. *)

Module Model.

(** Modelled from the spec: the Device of section 3 (the Go [Thing] struct
    is declared outside the embedded file): identifier, bearer key and
    owner identifier. *)
Record Device : Type := {
  devID : string;
  devKey : string;
  devOwner : string
}.

(** Modelled from the spec: the Channel of section 3 (the Go [Channel]
    struct is declared outside the embedded file): owner identifier and
    the set of connected device identifiers, stored under the channel's
    identifier. *)
Record Channel : Type := {
  chanOwner : string;
  chanThings : gset string
}.

(** Modelled from the spec: the persistent repositories of sections 2 and
    6 (their implementation is not among the sources): the durable
    devices and channels, and whether the store can be reached at all. *)
Record Repository : Type := {
  reachable : bool;
  devices : list Device;
  chans : gmap string Channel
}.

(** The world the reference collaborators act on: the users service's
    token table, the repository, the Key Cache (bearer key to device
    identifier) and the Membership Cache (channel identifier to the set
    of devices confirmed connected). *)
Record store : Type := {
  sessions : gmap string string;
  repo : Repository;
  keyCache : gmap string string;
  membership : gmap string (gset string)
}.

Definition with_repo (r : Repository) (s : store) : store :=
  {| sessions := sessions s; repo := r;
     keyCache := keyCache s; membership := membership s |}.

Definition with_keyCache (kc : gmap string string) (s : store) : store :=
  {| sessions := sessions s; repo := repo s;
     keyCache := kc; membership := membership s |}.

Definition with_membership (mc : gmap string (gset string)) (s : store) : store :=
  {| sessions := sessions s; repo := repo s;
     keyCache := keyCache s; membership := mc |}.

Definition with_devices (ds : list Device) (r : Repository) : Repository :=
  {| reachable := reachable r; devices := ds; chans := chans r |}.

Definition with_chans (cs : gmap string Channel) (r : Repository) : Repository :=
  {| reachable := reachable r; devices := devices r; chans := cs |}.

(** The error of a repository that cannot be reached. *)
Definition ErrUnavailable : error := ErrOther "repository unavailable".

(** *** Key Cache *)

(** Modelled from the spec: the Key Cache of section 4.1 (the Go
    [ThingCache] implementation is not among the sources).
    [Resolve(key)]: pure lookup, not-found when absent. *)
Definition keyCache_ID (key : string) (s : store) : result * store :=
  match keyCache s !! key with
  | Some id => ((id, None), s)
  | None => (("", Some ErrNotFound), s)
  end.

(** Modelled from the spec: section 4.1 [Put(key, deviceID)], an
    idempotent upsert that overwrites any prior mapping for the key. *)
Definition keyCache_Save (key id : string) (s : store) : option error * store :=
  (None, with_keyCache (<[key := id]> (keyCache s)) s).

(** Modelled from the spec: section 4.1 [Invalidate(deviceID)], which
    removes any entry whose value equals [deviceID]. *)
Definition keyCache_Remove (id : string) (s : store) : option error * store :=
  (None, with_keyCache (filter (fun kv => kv.2 <> id) (keyCache s)) s).

(** *** Membership Cache *)

Definition members (chanID : string) (mc : gmap string (gset string)) : gset string :=
  default ∅ (mc !! chanID).

(** Modelled from the spec: the Membership Cache of section 4.2 (the Go
    [ChannelCache] implementation is not among the sources).
    [IsConnected(channelID, deviceID)]: pure lookup, false both when
    disconnected and when unknown. *)
Definition membership_HasThing (chanID thingID : string) (s : store) : bool * store :=
  (bool_decide (thingID ∈ members chanID (membership s)), s).

(** Modelled from the spec: section 4.2 [Connect(channelID, deviceID)],
    idempotent, marks the pair as confirmed-connected. *)
Definition membership_Connect (chanID thingID : string) (s : store) : option error * store :=
  (None,
   with_membership
     (<[chanID := {[thingID]} ∪ members chanID (membership s)]> (membership s)) s).

(** Modelled from the spec: section 4.2 [Disconnect(channelID, deviceID)],
    removes the confirmed-connected marking. *)
Definition membership_Disconnect (chanID thingID : string) (s : store) : option error * store :=
  (None,
   with_membership (alter (fun ds => ds ∖ {[thingID]}) chanID (membership s)) s).

(** Modelled from the spec: section 4.2 [InvalidateChannel(channelID)],
    removes all memberships for a channel. *)
Definition membership_Remove (chanID : string) (s : store) : option error * store :=
  (None, with_membership (delete chanID (membership s)) s).

(** *** Repositories and users service *)

Definition find_by_key (key : string) (ds : list Device) : option Device :=
  List.find (fun d => bool_decide (devKey d = key)) ds.

Definition owns (owner id : string) (d : Device) : bool :=
  bool_decide (devID d = id) && bool_decide (devOwner d = owner).

(** Run a repository operation, or fail when the repository cannot be
    reached (section 5: a call that misses its deadline is a repository
    failure). *)
Definition if_reachable {A} (s : store) (fail : A) (op : A * store) : A * store :=
  if reachable (repo s) then op else (fail, s).

(** Modelled from the spec: section 6 [FindByKey(key) -> Device,
    NotFoundError] (the Go [ThingRepository] implementation is not among
    the sources). *)
Definition things_RetrieveByKey (key : string) (s : store) : result * store :=
  if_reachable s ("", Some ErrUnavailable)
    match find_by_key key (devices (repo s)) with
    | Some d => ((devID d, None), s)
    | None => (("", Some ErrNotFound), s)
    end.

(** Modelled from the spec: key rotation of section 3 (the bearer key is
    unique and rotatable, the identifier stays): the owner's device [id]
    gets the new key. *)
Definition things_UpdateKey (owner id key : string) (s : store) : option error * store :=
  if_reachable s (Some ErrUnavailable)
    (if existsb (owns owner id) (devices (repo s)) then
       match find_by_key key (devices (repo s)) with
       | Some _ => (Some ErrConflict, s)
       | None =>
           let rotate d :=
             if owns owner id d
             then {| devID := devID d; devKey := key; devOwner := devOwner d |}
             else d in
           (None, with_repo (with_devices (rotate <$> devices (repo s)) (repo s)) s)
       end
     else (Some ErrNotFound, s)).

(** Modelled from the spec: deletion of a device by owner action
    (section 3). *)
Definition things_Remove (owner id : string) (s : store) : option error * store :=
  if_reachable s (Some ErrUnavailable)
    (None,
     with_repo
       (with_devices (List.filter (fun d => negb (owns owner id d)) (devices (repo s)))
                     (repo s)) s).

(** Modelled from the spec: section 6 [HasDevice(channelID, key) ->
    deviceID, NotFoundError|Unauthorized] (the Go [ChannelRepository]
    implementation is not among the sources): the device is looked up by
    its key in the repository and must be in the channel's connected
    set. *)
Definition channels_HasThing (chanID key : string) (s : store) : result * store :=
  if_reachable s ("", Some ErrUnavailable)
    match find_by_key key (devices (repo s)), chans (repo s) !! chanID with
    | Some d, Some c =>
        if bool_decide (devID d ∈ chanThings c) then ((devID d, None), s)
        else (("", Some ErrUnauthorizedAccess), s)
    | _, _ => (("", Some ErrNotFound), s)
    end.

Definition update_channel (owner chanID : string) (f : gset string -> gset string)
    (s : store) : option error * store :=
  match chans (repo s) !! chanID with
  | Some c =>
      if bool_decide (chanOwner c = owner) then
        let c' := {| chanOwner := chanOwner c; chanThings := f (chanThings c) |} in
        (None, with_repo (with_chans (<[chanID := c']> (chans (repo s))) (repo s)) s)
      else (Some ErrNotFound, s)
  | None => (Some ErrNotFound, s)
  end.

(** Modelled from the spec: connecting and disconnecting a device on the
    owner's channel (section 3: devices connect and disconnect over
    time). *)
Definition channels_Connect (owner chanID thingID : string) (s : store) : option error * store :=
  if_reachable s (Some ErrUnavailable)
    (if existsb (owns owner thingID) (devices (repo s))
     then update_channel owner chanID (fun ds => {[thingID]} ∪ ds) s
     else (Some ErrNotFound, s)).

Definition channels_Disconnect (owner chanID thingID : string) (s : store) : option error * store :=
  if_reachable s (Some ErrUnavailable)
    (update_channel owner chanID (fun ds => ds ∖ {[thingID]}) s).

(** Modelled from the spec: deletion of a channel by owner action
    (section 3). *)
Definition channels_Remove (owner id : string) (s : store) : option error * store :=
  if_reachable s (Some ErrUnavailable)
    match chans (repo s) !! id with
    | Some c =>
        if bool_decide (chanOwner c = owner)
        then (None, with_repo (with_chans (delete id (chans (repo s))) (repo s)) s)
        else (Some ErrNotFound, s)
    | None => (Some ErrNotFound, s)
    end.

(** The external users service: a token names its owner or is refused. *)
Definition users_Identify (token : string) (s : store) : result * store :=
  match sessions s !! token with
  | Some owner => ((owner, None), s)
  | None => (("", Some ErrUnauthorizedAccess), s)
  end.

Definition modelUsers : UsersServiceClient.t store :=
  {| UsersServiceClient.Identify := users_Identify |}.

Definition modelThings : ThingRepository.t store :=
  {| ThingRepository.UpdateKey := things_UpdateKey;
     ThingRepository.RetrieveByKey := things_RetrieveByKey;
     ThingRepository.Remove := things_Remove |}.

Definition modelChannels : ChannelRepository.t store :=
  {| ChannelRepository.Remove := channels_Remove;
     ChannelRepository.Connect := channels_Connect;
     ChannelRepository.Disconnect := channels_Disconnect;
     ChannelRepository.HasThing := channels_HasThing |}.

Definition modelChannelCache : ChannelCache.t store :=
  {| ChannelCache.Connect := membership_Connect;
     ChannelCache.HasThing := membership_HasThing;
     ChannelCache.Disconnect := membership_Disconnect;
     ChannelCache.Remove := membership_Remove |}.

Definition modelThingCache : ThingCache.t store :=
  {| ThingCache.Save := keyCache_Save;
     ThingCache.ID := keyCache_ID;
     ThingCache.Remove := keyCache_Remove |}.

(** The service wired as [New] wires it, on given repositories and users
    service and the two reference caches. *)
Definition cached (u : UsersServiceClient.t store) (t : ThingRepository.t store)
    (c : ChannelRepository.t store) : thingsService store :=
  {| users := u; things := t; channels := c;
     channelCache := modelChannelCache; thingCache := modelThingCache |}.

Definition svc : thingsService store := cached modelUsers modelThings modelChannels.

(** *** A small deployment

    Owner "alice" (token "tok") owns device "d1" with key "k1", connected
    to her channel "c1"; both caches are cold. *)
Definition d1 : Device := {| devID := "d1"; devKey := "k1"; devOwner := "alice" |}.

Definition repo0 : Repository :=
  {| reachable := true;
     devices := [d1];
     chans := {[ "c1" := {| chanOwner := "alice"; chanThings := {[ "d1" ]} |} ]} |}.

Definition cold : store :=
  {| sessions := {[ "tok" := "alice" ]}; repo := repo0;
     keyCache := ∅; membership := ∅ |}.

(** The store after the first authorization of "k1" on "c1": both caches
    are warm. *)
Definition warm : store := world (CanAccess svc "c1" "k1" cold).

(** What the two reference caches hold. *)
Definition caches (s : store) : gmap string string * gmap string (gset string) :=
  (keyCache s, membership s).

(** A bearer key is present in the repository when some stored device
    carries it. *)
Definition key_in_repository (key : string) (s : store) : Prop :=
  exists d, d ∈ devices (repo s) /\ devKey d = key.

(** Both caches hold a positive answer for ([chanID], [key]): the Key Cache
    resolves the key to [id] and the Membership Cache has [id] on the
    channel. *)
Definition positive (chanID key id : string) (s : store) : Prop :=
  keyCache s !! key = Some id /\ id ∈ members chanID (membership s).

(** The same repository content behind a failed connection. *)
Definition unplug (s : store) : store :=
  with_repo {| reachable := false; devices := devices (repo s);
               chans := chans (repo s) |} s.

(** The store after "k1" was resolved once on the cold deployment and the
    owner then rotated the key of "d1" from "k1" to "k2". *)
Definition rotated : store :=
  world (UpdateKey svc "tok" "d1" "k2" (world (Identify svc "k1" cold))).





End Model.

Import Model.

(** ** Entities and the owner-facing paths

    The create, update, view and list methods of [service.go].  They call
    the users service, the identity provider and repository methods beyond
    those of the authorization paths, and no cache. *)

(** The [Thing] struct as [service.go] uses it: the three fields it reads
    or assigns, and the rest of the struct, which it only carries along. *)
Module Thing.
Record t (P : Type) : Type := mk {
  ID : string;
  Owner : string;
  Key : string;
  rest : P
}.
Arguments mk {P} _ _ _ _.
Arguments ID {P} _.
Arguments Owner {P} _.
Arguments Key {P} _.
Arguments rest {P} _.

(* thing.ID = id *)
Definition with_ID {P} (id : string) (th : t P) : t P :=
  mk id (Owner th) (Key th) (rest th).
(* thing.Owner = owner *)
Definition with_Owner {P} (owner : string) (th : t P) : t P :=
  mk (ID th) owner (Key th) (rest th).
(* thing.Key = key *)
Definition with_Key {P} (key : string) (th : t P) : t P :=
  mk (ID th) (Owner th) key (rest th).
(* Thing{} *)
Definition zero {P} (z : P) : t P := mk "" "" "" z.
End Thing.

(** The [Channel] struct as [service.go] uses it. *)
Module Channel.
Record t (Q : Type) : Type := mk {
  ID : string;
  Owner : string;
  rest : Q
}.
Arguments mk {Q} _ _ _.
Arguments ID {Q} _.
Arguments Owner {Q} _.
Arguments rest {Q} _.

(* channel.ID = id *)
Definition with_ID {Q} (id : string) (ch : t Q) : t Q := mk id (Owner ch) (rest ch).
(* channel.Owner = owner *)
Definition with_Owner {Q} (owner : string) (ch : t Q) : t Q := mk (ID ch) owner (rest ch).
(* Channel{} *)
Definition zero {Q} (z : Q) : t Q := mk "" "" z.
End Channel.

Module IdentityProvider.
Record t (W : Type) : Type := {
  ID : W -> result * W
}.
Arguments ID {W} _ _.
End IdentityProvider.

(** The [ThingRepository] methods of the create, update, view and list
    paths; [TP] is the [ThingsPage] struct, offsets and limits are
    [uint64] values that the service only passes on. *)
Module ThingStore.
Record t (W P TP : Type) : Type := {
  Save : Thing.t P -> W -> result * W;
  Update : Thing.t P -> W -> option error * W;
  RetrieveByID : string -> string -> W -> (Thing.t P * option error) * W;
  RetrieveAll : string -> N -> N -> string -> W -> (TP * option error) * W;
  RetrieveByChannel : string -> string -> N -> N -> W -> (TP * option error) * W
}.
Arguments Save {W P TP} _ _ _.
Arguments Update {W P TP} _ _ _.
Arguments RetrieveByID {W P TP} _ _ _ _.
Arguments RetrieveAll {W P TP} _ _ _ _ _ _.
Arguments RetrieveByChannel {W P TP} _ _ _ _ _ _.
End ThingStore.

(** The [ChannelRepository] methods of the create, update, view and list
    paths; [CP] is the [ChannelsPage] struct. *)
Module ChannelStore.
Record t (W Q CP : Type) : Type := {
  Save : Channel.t Q -> W -> result * W;
  Update : Channel.t Q -> W -> option error * W;
  RetrieveByID : string -> string -> W -> (Channel.t Q * option error) * W;
  RetrieveAll : string -> N -> N -> string -> W -> (CP * option error) * W;
  RetrieveByThing : string -> string -> N -> N -> W -> (CP * option error) * W
}.
Arguments Save {W Q CP} _ _ _.
Arguments Update {W Q CP} _ _ _.
Arguments RetrieveByID {W Q CP} _ _ _ _.
Arguments RetrieveAll {W Q CP} _ _ _ _ _ _.
Arguments RetrieveByThing {W Q CP} _ _ _ _ _ _.
End ChannelStore.

(** What the owner-facing paths use of the service: the [thingsService]
    above, its identity provider [idp], the further repository methods,
    the [Validate] method of [Thing] (declared outside the embedded file)
    and the zero values of the structs the service returns on error. *)
Record ownerService (W P Q TP CP : Type) : Type := {
  base : thingsService W;
  idp : IdentityProvider.t W;
  thingStore : ThingStore.t W P TP;
  channelStore : ChannelStore.t W Q CP;
  Validate : Thing.t P -> option error;
  zeroP : P;
  zeroQ : Q;
  zeroTP : TP;
  zeroCP : CP
}.
Arguments base {W P Q TP CP} _.
Arguments idp {W P Q TP CP} _.
Arguments thingStore {W P Q TP CP} _.
Arguments channelStore {W P Q TP CP} _.
Arguments Validate {W P Q TP CP} _ _.
Arguments zeroP {W P Q TP CP} _.
Arguments zeroQ {W P Q TP CP} _.
Arguments zeroTP {W P Q TP CP} _.
Arguments zeroCP {W P Q TP CP} _.

(** Plain state passing for the paths that are not logged. *)
Definition St (W A : Type) : Type := W -> A * W.

Definition sret {W A} (a : A) : St W A := fun w => (a, w).

Definition sbind {W A B} (m : St W A) (k : A -> St W B) : St W B :=
  fun w => let '(a, w1) := m w in k a w1.

Declare Scope st_scope.
Delimit Scope st_scope with st.
Notation "'let*' x := m 'in' k" := (sbind m (fun x => k))
  (at level 10, x name, m at level 100, k at level 200,
   only parsing) : st_scope.
Notation "'let*' ' pat := m 'in' k" :=
  (sbind m (fun x => match x with pat => k end))
  (at level 10, pat pattern, m at level 100, k at level 200,
   only parsing) : st_scope.

Section OwnerPaths.
Context {W P Q TP CP : Type}.
Variable os : ownerService W P Q TP CP.
Local Open Scope st_scope.

Definition zeroThing : Thing.t P := Thing.zero (zeroP os).
Definition zeroChannel : Channel.t Q := Channel.zero (zeroQ os).

(* ts.users.Identify(ctx, &mainflux.Token{Value: token}) *)
Definition whois (token : string) : St W result :=
  UsersServiceClient.Identify (users (base os)) token.

Definition AddThing (token : string) (thing : Thing.t P)
    : St W (Thing.t P * option error) :=
  match Validate os thing with
  | Some _ => sret (zeroThing, Some ErrMalformedEntity)
  | None =>
      let* '(res, err) := whois token in
      match err with
      | Some _ => sret (zeroThing, Some ErrUnauthorizedAccess)
      | None =>
          let* '(id, err) := IdentityProvider.ID (idp os) in
          let thing := Thing.with_ID id thing in
          match err with
          | Some e => sret (zeroThing, Some e)
          | None =>
              let thing := Thing.with_Owner res thing in
              let* '(thing, err) :=
                (if bool_decide (Thing.Key thing = "") then
                   let* '(key, err) := IdentityProvider.ID (idp os) in
                   sret (Thing.with_Key key thing, err)
                 else sret (thing, None)) in
              match err with
              | Some e => sret (zeroThing, Some e)
              | None =>
                  let* '(id, err) := ThingStore.Save (thingStore os) thing in
                  match err with
                  | Some e => sret (zeroThing, Some e)
                  | None => sret (Thing.with_ID id thing, None)
                  end
              end
          end
      end
  end.

Definition UpdateThing (token : string) (thing : Thing.t P) : St W (option error) :=
  match Validate os thing with
  | Some _ => sret (Some ErrMalformedEntity)
  | None =>
      let* '(res, err) := whois token in
      match err with
      | Some _ => sret (Some ErrUnauthorizedAccess)
      | None => ThingStore.Update (thingStore os) (Thing.with_Owner res thing)
      end
  end.

Definition ViewThing (token id : string) : St W (Thing.t P * option error) :=
  let* '(res, err) := whois token in
  match err with
  | Some _ => sret (zeroThing, Some ErrUnauthorizedAccess)
  | None => ThingStore.RetrieveByID (thingStore os) res id
  end.

Definition ListThings (token : string) (offset limit : N) (name : string)
    : St W (TP * option error) :=
  let* '(res, err) := whois token in
  match err with
  | Some _ => sret (zeroTP os, Some ErrUnauthorizedAccess)
  | None => ThingStore.RetrieveAll (thingStore os) res offset limit name
  end.

Definition ListThingsByChannel (token channel : string) (offset limit : N)
    : St W (TP * option error) :=
  let* '(res, err) := whois token in
  match err with
  | Some _ => sret (zeroTP os, Some ErrUnauthorizedAccess)
  | None => ThingStore.RetrieveByChannel (thingStore os) res channel offset limit
  end.

Definition CreateChannel (token : string) (channel : Channel.t Q)
    : St W (Channel.t Q * option error) :=
  let* '(res, err) := whois token in
  match err with
  | Some _ => sret (zeroChannel, Some ErrUnauthorizedAccess)
  | None =>
      let* '(id, err) := IdentityProvider.ID (idp os) in
      let channel := Channel.with_ID id channel in
      match err with
      | Some e => sret (zeroChannel, Some e)
      | None =>
          let channel := Channel.with_Owner res channel in
          let* '(id, err) := ChannelStore.Save (channelStore os) channel in
          match err with
          | Some e => sret (zeroChannel, Some e)
          | None => sret (Channel.with_ID id channel, None)
          end
      end
  end.

Definition UpdateChannel (token : string) (channel : Channel.t Q) : St W (option error) :=
  let* '(res, err) := whois token in
  match err with
  | Some _ => sret (Some ErrUnauthorizedAccess)
  | None => ChannelStore.Update (channelStore os) (Channel.with_Owner res channel)
  end.

Definition ViewChannel (token id : string) : St W (Channel.t Q * option error) :=
  let* '(res, err) := whois token in
  match err with
  | Some _ => sret (zeroChannel, Some ErrUnauthorizedAccess)
  | None => ChannelStore.RetrieveByID (channelStore os) res id
  end.

Definition ListChannels (token : string) (offset limit : N) (name : string)
    : St W (CP * option error) :=
  let* '(res, err) := whois token in
  match err with
  | Some _ => sret (zeroCP os, Some ErrUnauthorizedAccess)
  | None => ChannelStore.RetrieveAll (channelStore os) res offset limit name
  end.

Definition ListChannelsByThing (token thing : string) (offset limit : N)
    : St W (CP * option error) :=
  let* '(res, err) := whois token in
  match err with
  | Some _ => sret (zeroCP os, Some ErrUnauthorizedAccess)
  | None => ChannelStore.RetrieveByThing (channelStore os) res thing offset limit
  end.

End OwnerPaths.

(** ** Footprints *)

(** Calls to either cache. *)
Definition is_cache_call (e : event) : bool :=
  match e with
  | ChannelCacheConnect _ _ _ | ChannelCacheHasThing _ _ _
  | ChannelCacheDisconnect _ _ _ | ChannelCacheRemove _ _
  | ThingCacheSave _ _ _ | ThingCacheID _ _ | ThingCacheRemove _ _ => true
  | _ => false
  end.

(** The calls an authorization of [key] on [chanID] may make. *)
Definition authorizes (chanID key : string) (e : event) : Prop :=
  match e with
  | ThingCacheID k _ => k = key
  | ChannelCacheHasThing c _ _ => c = chanID
  | ChannelsHasThing c k _ => c = chanID /\ k = key
  | ThingCacheSave k _ _ => k = key
  | ChannelCacheConnect c _ _ => c = chanID
  | _ => False
  end.

(** The calls a resolution of [key] may make. *)
Definition resolves (key : string) (e : event) : Prop :=
  match e with
  | ThingCacheID k _ | ThingsRetrieveByKey k _ | ThingCacheSave k _ _ => k = key
  | _ => False
  end.

(** How many repository calls a log holds. *)
Definition repo_calls (tr : list event) : nat := length (List.filter is_repo_call tr).

(** ** A sample owner-facing deployment

    Collaborators for the owner-facing paths on the reference store: things
    carry a type string, which [Validate] wants non-empty. *)
Module Sample.

Definition toThing (d : Device) : Thing.t string :=
  Thing.mk (devID d) (devOwner d) (devKey d) "device".

Definition toChannel (id : string) (c : Model.Channel) : Channel.t string :=
  Channel.mk id (chanOwner c) "channel".

(** An identifier no stored device has: longer than each of them. *)
Definition freshID (s : store) : string :=
  String.concat "" ("n" :: (devID <$> devices (repo s))).

Definition sampleIdp : IdentityProvider.t store :=
  {| IdentityProvider.ID := fun s => ((freshID s, None), s) |}.

(** An identity provider that is out of order. *)
Definition brokenIdp : IdentityProvider.t store :=
  {| IdentityProvider.ID := fun s => (("", Some (ErrOther "no identifier")), s) |}.

Definition sample_Save (th : Thing.t string) (s : store) : result * store :=
  if_reachable s ("", Some ErrUnavailable)
    match find_by_key (Thing.Key th) (devices (repo s)) with
    | Some _ => (("", Some ErrConflict), s)
    | None =>
        let d := {| devID := Thing.ID th; devKey := Thing.Key th;
                    devOwner := Thing.Owner th |} in
        ((Thing.ID th, None),
         with_repo (with_devices (devices (repo s) ++ [d]) (repo s)) s)
    end.

Definition sample_Update (th : Thing.t string) (s : store) : option error * store :=
  if_reachable s (Some ErrUnavailable)
    (if existsb (owns (Thing.Owner th) (Thing.ID th)) (devices (repo s))
     then (None, s) else (Some ErrNotFound, s)).

Definition sample_RetrieveByID (owner id : string) (s : store)
    : (Thing.t string * option error) * store :=
  if_reachable s (Thing.zero "", Some ErrUnavailable)
    match List.find (owns owner id) (devices (repo s)) with
    | Some d => ((toThing d, None), s)
    | None => ((Thing.zero "", Some ErrNotFound), s)
    end.

Definition page {A} (offset limit : N) (l : list A) : list A :=
  take (N.to_nat limit) (drop (N.to_nat offset) l).

Definition owned (owner : string) (s : store) : list Device :=
  List.filter (fun d => bool_decide (devOwner d = owner)) (devices (repo s)).

Definition sample_RetrieveAll (owner : string) (offset limit : N) (name : string)
    (s : store) : (list (Thing.t string) * option error) * store :=
  if_reachable s ([], Some ErrUnavailable)
    ((page offset limit (toThing <$> owned owner s), None), s).

Definition sample_RetrieveByChannel (owner channel : string) (offset limit : N)
    (s : store) : (list (Thing.t string) * option error) * store :=
  if_reachable s ([], Some ErrUnavailable)
    (let on := match chans (repo s) !! channel with
               | Some c => chanThings c
               | None => ∅
               end in
     let ds := List.filter (fun d => bool_decide (devID d ∈ on)) (owned owner s) in
     ((page offset limit (toThing <$> ds), None), s)).

Definition sampleThings : ThingStore.t store string (list (Thing.t string)) :=
  {| ThingStore.Save := sample_Save;
     ThingStore.Update := sample_Update;
     ThingStore.RetrieveByID := sample_RetrieveByID;
     ThingStore.RetrieveAll := sample_RetrieveAll;
     ThingStore.RetrieveByChannel := sample_RetrieveByChannel |}.

Definition sample_SaveChannel (ch : Channel.t string) (s : store) : result * store :=
  if_reachable s ("", Some ErrUnavailable)
    match chans (repo s) !! Channel.ID ch with
    | Some _ => (("", Some ErrConflict), s)
    | None =>
        let c := {| chanOwner := Channel.Owner ch; chanThings := ∅ |} in
        ((Channel.ID ch, None),
         with_repo (with_chans (<[Channel.ID ch := c]> (chans (repo s))) (repo s)) s)
    end.

Definition sample_UpdateChannel (ch : Channel.t string) (s : store) : option error * store :=
  update_channel (Channel.Owner ch) (Channel.ID ch) (fun ds => ds) s.

Definition sample_ViewChannel (owner id : string) (s : store)
    : (Channel.t string * option error) * store :=
  match chans (repo s) !! id with
  | Some c =>
      if bool_decide (chanOwner c = owner) then ((toChannel id c, None), s)
      else ((Channel.zero "", Some ErrNotFound), s)
  | None => ((Channel.zero "", Some ErrNotFound), s)
  end.

Definition owned_channels (owner : string) (s : store) : list (Channel.t string) :=
  (fun ic => toChannel ic.1 ic.2)
    <$> List.filter (fun ic => bool_decide (chanOwner ic.2 = owner))
                    (map_to_list (chans (repo s))).

Definition sample_ListChannels (owner : string) (offset limit : N) (name : string)
    (s : store) : (list (Channel.t string) * option error) * store :=
  ((page offset limit (owned_channels owner s), None), s).

Definition sample_ChannelsByThing (owner thing : string) (offset limit : N)
    (s : store) : (list (Channel.t string) * option error) * store :=
  let having :=
    (fun ic => toChannel ic.1 ic.2)
      <$> List.filter (fun ic => bool_decide (chanOwner ic.2 = owner)
                                 && bool_decide (thing ∈ chanThings ic.2))
                      (map_to_list (chans (repo s))) in
  ((page offset limit having, None), s).

Definition sampleChannels : ChannelStore.t store string (list (Channel.t string)) :=
  {| ChannelStore.Save := sample_SaveChannel;
     ChannelStore.Update := sample_UpdateChannel;
     ChannelStore.RetrieveByID := sample_ViewChannel;
     ChannelStore.RetrieveAll := sample_ListChannels;
     ChannelStore.RetrieveByThing := sample_ChannelsByThing |}.

(** A thing must say what it is. *)
Definition sample_Validate (th : Thing.t string) : option error :=
  if bool_decide (Thing.rest th = "") then Some ErrMalformedEntity else None.

Definition owners (i : IdentityProvider.t store)
    : ownerService store string string (list (Thing.t string)) (list (Channel.t string)) :=
  {| base := svc; idp := i;
     thingStore := sampleThings; channelStore := sampleChannels;
     Validate := sample_Validate;
     zeroP := ""; zeroQ := ""; zeroTP := []; zeroCP := [] |}.

(** A device to register, without a key of its own, and one with. *)
Definition sensor : Thing.t string := Thing.mk "" "" "" "device".
Definition keyed : Thing.t string := Thing.mk "x" "mallory" "k7" "app".
Definition room : Channel.t string := Channel.mk "y" "mallory" "room".

End Sample.

Import Sample.

(** * Properties *)

(** ** Run equations

    What each read-path method computes, call by call. *)

Section RunEquations.
Context {W : Type}.
Variable ts : thingsService W.

Lemma hasThing_eq chanID key w :
  hasThing ts chanID key w =
    let '(r, w1) := ThingCache.ID (thingCache ts) key w in
    match r.2 with
    | Some e => (("", Some e), w1, [ThingCacheID key r])
    | None =>
        let '(connected, w2) :=
          ChannelCache.HasThing (channelCache ts) chanID r.1 w1 in
        ((if connected then (r.1, None) else ("", Some ErrUnauthorizedAccess)),
         w2,
         [ThingCacheID key r; ChannelCacheHasThing chanID r.1 connected])
    end.
Proof.
  unfold hasThing, bind, call, ret.
  destruct (ThingCache.ID _ key w) as [[thingID [e|]] w1]; cbn; [done|].
  by destruct (ChannelCache.HasThing _ chanID thingID w1) as [[] w2].
Qed.

Lemma CanAccess_eq chanID key w :
  CanAccess ts chanID key w =
    let '(r, w1, l1) := hasThing ts chanID key w in
    match r.2 with
    | None => ((r.1, None), w1, l1)
    | Some _ =>
        let '(r', w2) := ChannelRepository.HasThing (channels ts) chanID key w1 in
        match r'.2 with
        | Some _ =>
            (("", Some ErrUnauthorizedAccess), w2,
             l1 ++ [ChannelsHasThing chanID key r'])
        | None =>
            let '(s1, w3) := ThingCache.Save (thingCache ts) key r'.1 w2 in
            let '(s2, w4) := ChannelCache.Connect (channelCache ts) chanID r'.1 w3 in
            ((r'.1, None), w4,
             l1 ++ [ChannelsHasThing chanID key r';
                    ThingCacheSave key r'.1 s1;
                    ChannelCacheConnect chanID r'.1 s2])
        end
    end.
Proof.
  unfold CanAccess, bind at 1.
  destruct (hasThing ts chanID key w) as [[[thingID [e|]] w1] l1]; cbn;
    [|by rewrite app_nil_r].
  unfold bind, call, ret.
  destruct (ChannelRepository.HasThing _ chanID key w1) as [[id [e'|]] w2];
    cbn; [done|].
  destruct (ThingCache.Save _ key id w2) as [s1 w3].
  by destruct (ChannelCache.Connect _ chanID id w3) as [s2 w4].
Qed.

Lemma Identify_eq key w :
  Identify ts key w =
    let '(r, w1) := ThingCache.ID (thingCache ts) key w in
    match r.2 with
    | None => ((r.1, None), w1, [ThingCacheID key r])
    | Some _ =>
        let '(r', w2) := ThingRepository.RetrieveByKey (things ts) key w1 in
        match r'.2 with
        | Some _ =>
            (("", Some ErrUnauthorizedAccess), w2,
             [ThingCacheID key r; ThingsRetrieveByKey key r'])
        | None =>
            let '(s1, w3) := ThingCache.Save (thingCache ts) key r'.1 w2 in
            ((r'.1, None), w3,
             [ThingCacheID key r; ThingsRetrieveByKey key r';
              ThingCacheSave key r'.1 s1])
        end
    end.
Proof.
  unfold Identify, bind, call, ret.
  destruct (ThingCache.ID _ key w) as [[id [e|]] w1]; cbn; [|done].
  destruct (ThingRepository.RetrieveByKey _ key w1) as [[id' [e'|]] w2];
    cbn; [done|].
  by destruct (ThingCache.Save _ key id' w2) as [s1 w3].
Qed.

End RunEquations.

(** Case analysis on every collaborator call of a read-path run. *)
Ltac read_path_cases :=
  rewrite ?CanAccess_eq, ?Identify_eq, ?hasThing_eq;
  repeat match goal with
    | |- context [ThingCache.ID ?c ?k ?w] =>
        destruct (ThingCache.ID c k w) as [[? [?|]] ?] eqn:?; cbn
    | |- context [ChannelCache.HasThing ?c ?a ?b ?w] =>
        destruct (ChannelCache.HasThing c a b w) as [[] ?] eqn:?; cbn
    | |- context [ChannelRepository.HasThing ?c ?a ?b ?w] =>
        destruct (ChannelRepository.HasThing c a b w) as [[? [?|]] ?] eqn:?; cbn
    | |- context [ThingRepository.RetrieveByKey ?c ?k ?w] =>
        destruct (ThingRepository.RetrieveByKey c k w) as [[? [?|]] ?] eqn:?; cbn
    | |- context [ThingCache.Save ?c ?a ?b ?w] =>
        destruct (ThingCache.Save c a b w) as [? ?] eqn:?; cbn
    | |- context [ChannelCache.Connect ?c ?a ?b ?w] =>
        destruct (ChannelCache.Connect c a b w) as [? ?] eqn:?; cbn
    end.

(** ** The authorization read path *)

(** C3: if the thing cache resolves the key to a device and the membership
    cache reports that device connected to the channel, [CanAccess] returns
    the device and its only calls are the two cache lookups: no repository
    is called. *)
Theorem CanAccess_fast_path {W} (ts : thingsService W) chanID key deviceID w w1 w2 :
  ThingCache.ID (thingCache ts) key w = ((deviceID, None), w1) ->
  ChannelCache.HasThing (channelCache ts) chanID deviceID w1 = (true, w2) ->
  CanAccess ts chanID key w =
    ((deviceID, None), w2,
     [ThingCacheID key (deviceID, None);
      ChannelCacheHasThing chanID deviceID true])
  /\ Forall (fun e => is_repo_call e = false) (trace (CanAccess ts chanID key w)).
Proof.
  intros Hid Hconn.
  assert (CanAccess ts chanID key w =
            ((deviceID, None), w2,
             [ThingCacheID key (deviceID, None);
              ChannelCacheHasThing chanID deviceID true])) as ->.
  { rewrite CanAccess_eq, hasThing_eq, Hid. cbn. by rewrite Hconn. }
  split; [done|]. by repeat constructor.
Qed.

Lemma CanAccess_fast_path_witness :
  CanAccess svc "c1" "k1" warm =
    (("d1", None), warm,
     [ThingCacheID "k1" ("d1", None); ChannelCacheHasThing "c1" "d1" true])
  /\ Forall (fun e => is_repo_call e = false) (trace (CanAccess svc "c1" "k1" warm)).
Proof.
  apply (CanAccess_fast_path svc "c1" "k1" "d1" warm warm warm);
    vm_compute; reflexivity.
Defined.

(** C2: [Identify] asks the thing cache first and on a hit returns the
    cached identifier with no further call; on a miss it asks the
    repository by key, answers [ErrUnauthorizedAccess] when that lookup
    fails, and otherwise saves (key, id) into the thing cache and returns
    the id. *)
Theorem Identify_read_through {W} (ts : thingsService W) key w :
  (forall id w1,
      ThingCache.ID (thingCache ts) key w = ((id, None), w1) ->
      Identify ts key w = ((id, None), w1, [ThingCacheID key (id, None)]))
  /\ (forall x e w1 y e' w2,
      ThingCache.ID (thingCache ts) key w = ((x, Some e), w1) ->
      ThingRepository.RetrieveByKey (things ts) key w1 = ((y, Some e'), w2) ->
      Identify ts key w =
        (("", Some ErrUnauthorizedAccess), w2,
         [ThingCacheID key (x, Some e); ThingsRetrieveByKey key (y, Some e')]))
  /\ (forall x e w1 id w2 saved w3,
      ThingCache.ID (thingCache ts) key w = ((x, Some e), w1) ->
      ThingRepository.RetrieveByKey (things ts) key w1 = ((id, None), w2) ->
      ThingCache.Save (thingCache ts) key id w2 = (saved, w3) ->
      Identify ts key w =
        ((id, None), w3,
         [ThingCacheID key (x, Some e); ThingsRetrieveByKey key (id, None);
          ThingCacheSave key id saved])).
Proof.
  repeat split.
  - intros id w1 Hid. by rewrite Identify_eq, Hid.
  - intros x e w1 y e' w2 Hid Hrepo. rewrite Identify_eq, Hid. cbn.
    by rewrite Hrepo.
  - intros x e w1 id w2 saved w3 Hid Hrepo Hsave. rewrite Identify_eq, Hid. cbn.
    rewrite Hrepo. cbn. by rewrite Hsave.
Qed.

Lemma Identify_read_through_witness :
  Identify svc "k1" warm = (("d1", None), warm, [ThingCacheID "k1" ("d1", None)])
  /\ Identify svc "k9" cold =
       (("", Some ErrUnauthorizedAccess), cold,
        [ThingCacheID "k9" ("", Some ErrNotFound);
         ThingsRetrieveByKey "k9" ("", Some ErrNotFound)])
  /\ Identify svc "k1" cold =
       (("d1", None), with_keyCache {[ "k1" := "d1" ]} cold,
        [ThingCacheID "k1" ("", Some ErrNotFound);
         ThingsRetrieveByKey "k1" ("d1", None);
         ThingCacheSave "k1" "d1" None]).
Proof.
  split; [|split].
  - apply (proj1 (Identify_read_through svc "k1" warm)). vm_compute; reflexivity.
  - apply (proj1 (proj2 (Identify_read_through svc "k9" cold))
             "" ErrNotFound cold "" ErrNotFound cold); vm_compute; reflexivity.
  - apply (proj2 (proj2 (Identify_read_through svc "k1" cold))
             "" ErrNotFound cold "d1" cold None); vm_compute; reflexivity.
Defined.

(** C5: the only error [CanAccess] and [Identify] ever return is
    [ErrUnauthorizedAccess] (with the empty identifier), whatever the caches
    and repositories do; in particular whenever the repository call of the
    run came back with an error, of any kind, the caller gets
    [ErrUnauthorizedAccess]. *)
Theorem read_path_fails_closed {W} (ts : thingsService W) chanID key w :
  (forall e, (value (CanAccess ts chanID key w)).2 = Some e ->
     value (CanAccess ts chanID key w) = ("", Some ErrUnauthorizedAccess))
  /\ (forall e, (value (Identify ts key w)).2 = Some e ->
     value (Identify ts key w) = ("", Some ErrUnauthorizedAccess))
  /\ (forall c k y e', ChannelsHasThing c k (y, Some e') ∈ trace (CanAccess ts chanID key w) ->
     value (CanAccess ts chanID key w) = ("", Some ErrUnauthorizedAccess))
  /\ (forall k y e', ThingsRetrieveByKey k (y, Some e') ∈ trace (Identify ts key w) ->
     value (Identify ts key w) = ("", Some ErrUnauthorizedAccess)).
Proof.
  unfold value, trace. split; [|split; [|split]].
  - intros e. by read_path_cases.
  - intros e. by read_path_cases.
  - intros c k y e'. read_path_cases; rewrite ?elem_of_cons, ?elem_of_nil;
      intros; destruct_or?; by simplify_eq.
  - intros k y e'. read_path_cases; rewrite ?elem_of_cons, ?elem_of_nil;
      intros; destruct_or?; by simplify_eq.
Qed.

Lemma read_path_fails_closed_witness :
  value (CanAccess svc "c1" "k9" cold) = ("", Some ErrUnauthorizedAccess)
  /\ value (Identify svc "k9" cold) = ("", Some ErrUnauthorizedAccess)
  /\ value (CanAccess svc "c1" "k1" (unplug cold)) = ("", Some ErrUnauthorizedAccess)
  /\ value (Identify svc "k1" (unplug cold)) = ("", Some ErrUnauthorizedAccess).
Proof.
  split; [|split; [|split]].
  - apply (proj1 (read_path_fails_closed svc "c1" "k9" cold) ErrUnauthorizedAccess).
    vm_compute; reflexivity.
  - apply (proj1 (proj2 (read_path_fails_closed svc "c1" "k9" cold))
             ErrUnauthorizedAccess).
    vm_compute; reflexivity.
  - apply (proj1 (proj2 (proj2 (read_path_fails_closed svc "c1" "k1" (unplug cold))))
             "c1" "k1" "" ErrUnavailable).
    vm_compute. set_solver.
  - apply (proj2 (proj2 (proj2 (read_path_fails_closed svc "c1" "k1" (unplug cold))))
             "k1" "" ErrUnavailable).
    vm_compute. set_solver.
Defined.

(** C1: [CanAccess] returns an error only when the repository membership
    check [channels.HasThing(chanID, key)] ran in that call and itself
    returned an error, and the error is [ErrUnauthorizedAccess]; the cache
    step [hasThing] is positive exactly when the thing cache resolves the
    key and the membership cache reports the device connected, and on any
    other cache result the repository is asked and alone decides. *)
Theorem CanAccess_denies_only_after_repository {W} (ts : thingsService W)
    chanID key w :
  let fast := hasThing ts chanID key w in
  let out := CanAccess ts chanID key w in
  let asked := (ChannelRepository.HasThing (channels ts) chanID key (world fast)).1 in
  (forall e, (value out).2 = Some e ->
     e = ErrUnauthorizedAccess
     /\ (exists e', asked.2 = Some e')
     /\ trace out = trace fast ++ [ChannelsHasThing chanID key asked])
  /\ (forall e, (value fast).2 = Some e ->
     (exists rest,
         trace out = trace fast ++ ChannelsHasThing chanID key asked :: rest)
     /\ ((value out).2 = None <-> asked.2 = None))
  /\ ((value fast).2 = None <->
      exists id w1 w2,
        ThingCache.ID (thingCache ts) key w = ((id, None), w1)
        /\ ChannelCache.HasThing (channelCache ts) chanID id w1 = (true, w2)).
Proof.
  cbv zeta. unfold value, world, trace. split; [|split].
  - intros e. read_path_cases; intros; simplify_eq; eauto.
  - intros e. read_path_cases; intros; simplify_eq;
      (split; [eauto | split; congruence]).
  - read_path_cases;
      (split; [intros; simplify_eq; eauto 10
              | intros (? & ? & ? & ? & ?); simplify_eq; congruence]).
Qed.

Lemma CanAccess_denies_only_after_repository_witness :
  (ErrUnauthorizedAccess = ErrUnauthorizedAccess
   /\ (exists e', (channels_HasThing "c1" "k9" cold).1.2 = Some e')
   /\ trace (CanAccess svc "c1" "k9" cold) =
        trace (hasThing svc "c1" "k9" cold)
        ++ [ChannelsHasThing "c1" "k9" (channels_HasThing "c1" "k9" cold).1])
  /\ ((exists rest,
         trace (CanAccess svc "c1" "k1" cold) =
           trace (hasThing svc "c1" "k1" cold)
           ++ ChannelsHasThing "c1" "k1" (channels_HasThing "c1" "k1" cold).1 :: rest)
      /\ ((value (CanAccess svc "c1" "k1" cold)).2 = None <->
          (channels_HasThing "c1" "k1" cold).1.2 = None)).
Proof.
  split.
  - apply (proj1 (CanAccess_denies_only_after_repository svc "c1" "k9" cold)
             ErrUnauthorizedAccess).
    vm_compute; reflexivity.
  - apply (proj1 (proj2 (CanAccess_denies_only_after_repository svc "c1" "k1" cold))
             ErrNotFound).
    vm_compute; reflexivity.
Defined.

(** C9: on the read path a cache entry is written only right after the
    repository confirmed it in the same call.  In [Identify] a
    [thingCache.Save] is for the requested key and the identifier that
    [things.RetrieveByKey] returned without error in the call just before
    it, and the channel cache is never written.  In [CanAccess] a
    [thingCache.Save] directly follows a [channels.HasThing] that returned
    that identifier without error, and [channelCache.Connect] follows that
    save for the same channel and identifier. *)
Theorem cache_population_follows_repository {W} (ts : thingsService W)
    chanID key w :
  (forall i k v r,
      trace (Identify ts key w) !! i = Some (ThingCacheSave k v r) ->
      k = key
      /\ (ThingRepository.RetrieveByKey (things ts) key
            (ThingCache.ID (thingCache ts) key w).2).1 = (v, None)
      /\ exists j, i = S j
           /\ trace (Identify ts key w) !! j = Some (ThingsRetrieveByKey key (v, None)))
  /\ (forall i c d r,
      trace (Identify ts key w) !! i <> Some (ChannelCacheConnect c d r))
  /\ (forall i k v r,
      trace (CanAccess ts chanID key w) !! i = Some (ThingCacheSave k v r) ->
      k = key
      /\ (ChannelRepository.HasThing (channels ts) chanID key
            (world (hasThing ts chanID key w))).1 = (v, None)
      /\ exists j, i = S j
           /\ trace (CanAccess ts chanID key w) !! j
              = Some (ChannelsHasThing chanID key (v, None)))
  /\ (forall i c d r,
      trace (CanAccess ts chanID key w) !! i = Some (ChannelCacheConnect c d r) ->
      c = chanID
      /\ (ChannelRepository.HasThing (channels ts) chanID key
            (world (hasThing ts chanID key w))).1 = (d, None)
      /\ exists j r', i = S (S j)
           /\ trace (CanAccess ts chanID key w) !! j
              = Some (ChannelsHasThing chanID key (d, None))
           /\ trace (CanAccess ts chanID key w) !! S j
              = Some (ThingCacheSave key d r')).
Proof.
  unfold world, trace. split; [|split; [|split]].
  - read_path_cases; intros [|[|[|[|i]]]] k v r Hi; simplify_eq/=; eauto.
  - read_path_cases; intros [|[|[|[|i]]]] c d r Hi; simplify_eq/=.
  - read_path_cases; intros [|[|[|[|[|[|i]]]]]] k v r Hi; simplify_eq/=; eauto.
  - read_path_cases; intros [|[|[|[|[|[|i]]]]]] c d r Hi; simplify_eq/=; eauto 10.
Qed.

Lemma cache_population_follows_repository_witness :
  ("k1" = "k1"
   /\ (things_RetrieveByKey "k1" (keyCache_ID "k1" cold).2).1 = ("d1", None)
   /\ exists j, 2 = S j
        /\ trace (Identify svc "k1" cold) !! j
           = Some (ThingsRetrieveByKey "k1" ("d1", None)))
  /\ ("c1" = "c1"
      /\ (channels_HasThing "c1" "k1" (world (hasThing svc "c1" "k1" cold))).1
         = ("d1", None)
      /\ exists j r', 3 = S (S j)
           /\ trace (CanAccess svc "c1" "k1" cold) !! j
              = Some (ChannelsHasThing "c1" "k1" ("d1", None))
           /\ trace (CanAccess svc "c1" "k1" cold) !! S j
              = Some (ThingCacheSave "k1" "d1" r')).
Proof.
  split.
  - apply (proj1 (cache_population_follows_repository svc "c1" "k1" cold)
             2 "k1" "d1" None).
    vm_compute; reflexivity.
  - apply (proj2 (proj2 (proj2 (cache_population_follows_repository svc "c1" "k1" cold)))
             3 "c1" "d1" None).
    vm_compute; reflexivity.
Defined.

(** Follow a view of the world through the read-only calls of a run. *)
Ltac view_unchanged :=
  repeat match goal with
    | Hv : forall k w, ?view (ThingCache.ID ?c k w).2 = ?view w,
      Hc : ThingCache.ID ?c ?k ?w = _ |- _ =>
        let E := fresh "E" in
        pose proof (Hv k w) as E; rewrite Hc in E; cbn in E; clear Hc
    | Hv : forall a b w, ?view (ChannelCache.HasThing ?c a b w).2 = ?view w,
      Hc : ChannelCache.HasThing ?c ?a ?b ?w = _ |- _ =>
        let E := fresh "E" in
        pose proof (Hv a b w) as E; rewrite Hc in E; cbn in E; clear Hc
    | Hv : forall k w, ?view (ThingRepository.RetrieveByKey ?c k w).2 = ?view w,
      Hc : ThingRepository.RetrieveByKey ?c ?k ?w = _ |- _ =>
        let E := fresh "E" in
        pose proof (Hv k w) as E; rewrite Hc in E; cbn in E; clear Hc
    | Hv : forall a b w, ?view (ChannelRepository.HasThing ?c a b w).2 = ?view w,
      Hc : ChannelRepository.HasThing ?c ?a ?b ?w = _ |- _ =>
        let E := fresh "E" in
        pose proof (Hv a b w) as E; rewrite Hc in E; cbn in E; clear Hc
    end;
  congruence.

(** C10: when [Identify] or [CanAccess] returns an error, the call made no
    cache write (no [thingCache.Save], no [channelCache.Connect], nor any
    removal), so whatever can be observed of the caches is as before the
    call: every view of the world that the lookups of the read path leave
    alone has the same value after the call as before it. *)
Theorem read_path_error_writes_nothing {W} (ts : thingsService W) chanID key w :
  (forall e, (value (Identify ts key w)).2 = Some e ->
     Forall (fun ev => is_cache_write ev = false) (trace (Identify ts key w)))
  /\ (forall e, (value (CanAccess ts chanID key w)).2 = Some e ->
     Forall (fun ev => is_cache_write ev = false) (trace (CanAccess ts chanID key w)))
  /\ (forall (V : Type) (view : W -> V),
      (forall k w, view (ThingCache.ID (thingCache ts) k w).2 = view w) ->
      (forall c d w, view (ChannelCache.HasThing (channelCache ts) c d w).2 = view w) ->
      (forall k w, view (ThingRepository.RetrieveByKey (things ts) k w).2 = view w) ->
      (forall c k w, view (ChannelRepository.HasThing (channels ts) c k w).2 = view w) ->
      (forall e, (value (Identify ts key w)).2 = Some e ->
         view (world (Identify ts key w)) = view w)
      /\ (forall e, (value (CanAccess ts chanID key w)).2 = Some e ->
         view (world (CanAccess ts chanID key w)) = view w)).
Proof.
  unfold value, world, trace. split; [|split].
  - intros e. read_path_cases; intros; simplify_eq; by repeat constructor.
  - intros e. read_path_cases; intros; simplify_eq; by repeat constructor.
  - intros V view Hid Hhas Hretr Hrepo. split; intros e.
    + read_path_cases; intros; simplify_eq; view_unchanged.
    + read_path_cases; intros; simplify_eq; view_unchanged.
Qed.

Lemma read_path_error_writes_nothing_witness :
  Forall (fun ev => is_cache_write ev = false) (trace (Identify svc "k9" cold))
  /\ Forall (fun ev => is_cache_write ev = false)
       (trace (CanAccess svc "c1" "k1" (unplug cold)))
  /\ caches (world (Identify svc "k9" warm)) = caches warm
  /\ caches (world (CanAccess svc "c9" "k1" warm)) = caches warm.
Proof.
  split; [|split].
  - apply (proj1 (read_path_error_writes_nothing svc "c1" "k9" cold)
             ErrUnauthorizedAccess).
    vm_compute; reflexivity.
  - apply (proj1 (proj2 (read_path_error_writes_nothing svc "c1" "k1" (unplug cold)))
             ErrUnauthorizedAccess).
    vm_compute; reflexivity.
  - assert (forall k s, caches (keyCache_ID k s).2 = caches s) as Hid.
    { intros k s. unfold keyCache_ID. by destruct (keyCache s !! k). }
    assert (forall k s, caches (things_RetrieveByKey k s).2 = caches s) as Hretr.
    { intros k s. unfold things_RetrieveByKey, if_reachable.
      destruct (reachable (repo s)); [|done].
      by destruct (find_by_key k (devices (repo s))). }
    assert (forall c k s, caches (channels_HasThing c k s).2 = caches s) as Hrepo.
    { intros c k s. unfold channels_HasThing, if_reachable.
      destruct (reachable (repo s)); [|done].
      destruct (find_by_key k (devices (repo s))); [|done].
      destruct (chans (repo s) !! c); [|done]. by case_bool_decide. }
    destruct (proj2 (proj2 (read_path_error_writes_nothing svc "c9" "k9" warm))
                _ caches Hid (fun _ _ _ => eq_refl) Hretr Hrepo) as [HI _].
    destruct (proj2 (proj2 (read_path_error_writes_nothing svc "c9" "k1" warm))
                _ caches Hid (fun _ _ _ => eq_refl) Hretr Hrepo) as [_ HC].
    split.
    + apply (HI ErrUnauthorizedAccess). vm_compute; reflexivity.
    + apply (HC ErrUnauthorizedAccess). vm_compute; reflexivity.
Defined.

(** ** The mutation paths *)

(** C8 as the code has it: once the users service has identified the
    token, [Disconnect], [RemoveThing] and [RemoveChannel] first invalidate
    the cache ([channelCache.Disconnect(chanID, thingID)],
    [thingCache.Remove(id)], [channelCache.Remove(id)]), then attempt the
    repository mutation and return its outcome, so the invalidation is done
    before the method returns, whether the repository mutation succeeds or
    fails; when the token is refused they return [ErrUnauthorizedAccess]
    and touch neither cache nor repository. *)
Theorem mutation_invalidates_before_repository {W} (ts : thingsService W)
    token chanID thingID id w :
  let '(r, w1) := UsersServiceClient.Identify (users ts) token w in
  match r.2 with
  | Some _ =>
      Disconnect ts token chanID thingID w
        = (Some ErrUnauthorizedAccess, w1, [UsersIdentify token r])
      /\ RemoveThing ts token id w
        = (Some ErrUnauthorizedAccess, w1, [UsersIdentify token r])
      /\ RemoveChannel ts token id w
        = (Some ErrUnauthorizedAccess, w1, [UsersIdentify token r])
  | None =>
      (let '(inv, w2) := ChannelCache.Disconnect (channelCache ts) chanID thingID w1 in
       let '(res, w3) := ChannelRepository.Disconnect (channels ts) r.1 chanID thingID w2 in
       Disconnect ts token chanID thingID w
         = (res, w3,
            [UsersIdentify token r;
             ChannelCacheDisconnect chanID thingID inv;
             ChannelsDisconnect r.1 chanID thingID res]))
      /\ (let '(inv, w2) := ThingCache.Remove (thingCache ts) id w1 in
          let '(res, w3) := ThingRepository.Remove (things ts) r.1 id w2 in
          RemoveThing ts token id w
            = (res, w3,
               [UsersIdentify token r; ThingCacheRemove id inv;
                ThingsRemove r.1 id res]))
      /\ (let '(inv, w2) := ChannelCache.Remove (channelCache ts) id w1 in
          let '(res, w3) := ChannelRepository.Remove (channels ts) r.1 id w2 in
          RemoveChannel ts token id w
            = (res, w3,
               [UsersIdentify token r; ChannelCacheRemove id inv;
                ChannelsRemove r.1 id res]))
  end.
Proof.
  unfold Disconnect, RemoveThing, RemoveChannel, identify, bind, call, ret.
  destruct (UsersServiceClient.Identify _ token w) as [[owner [e|]] w1]; cbn;
    [done|].
  split; [|split].
  - destruct (ChannelCache.Disconnect _ chanID thingID w1) as [inv w2].
    by destruct (ChannelRepository.Disconnect _ owner chanID thingID w2).
  - destruct (ThingCache.Remove _ id w1) as [inv w2].
    by destruct (ThingRepository.Remove _ owner id w2).
  - destruct (ChannelCache.Remove _ id w1) as [inv w2].
    by destruct (ChannelRepository.Remove _ owner id w2).
Qed.

(** C8 as stated fails: on the warm deployment each of the three paths
    invalidates its cache entry before any repository mutation has
    succeeded, and with the repository unreachable [Disconnect] fails and
    has dropped the membership entry all the same. *)
Lemma invalidation_after_success_counterexample :
  ~ invalidation_after_success (trace (Disconnect svc "tok" "c1" "d1" warm))
  /\ ~ invalidation_after_success (trace (RemoveThing svc "tok" "d1" warm))
  /\ ~ invalidation_after_success (trace (RemoveChannel svc "tok" "c1" warm))
  /\ (value (Disconnect svc "tok" "c1" "d1" (unplug warm)) = Some ErrUnavailable
      /\ (membership_HasThing "c1" "d1" (unplug warm)).1 = true
      /\ (membership_HasThing "c1" "d1"
            (world (Disconnect svc "tok" "c1" "d1" (unplug warm)))).1 = false).
Proof.
  assert (forall tr inv,
             tr !! 0 = Some (UsersIdentify "tok" ("alice", None)) ->
             tr !! 1 = Some inv -> is_invalidation inv = true ->
             ~ invalidation_after_success tr) as Hno.
  { intros tr inv H0 H1 Hinv Hclaim.
    destruct (Hclaim 1 inv H1 Hinv) as (j & m & Hj & Hm & Hok).
    assert (j = 0) as -> by lia. rewrite H0 in Hm. by simplify_eq. }
  split; [|split; [|split]].
  - by apply (Hno _ (ChannelCacheDisconnect "c1" "d1" None)).
  - by apply (Hno _ (ThingCacheRemove "d1" None)).
  - by apply (Hno _ (ChannelCacheRemove "c1" None)).
  - by vm_compute.
Qed.

(** ** The service on the reference caches *)

Section ReferenceCaches.
Variable u : UsersServiceClient.t store.
Variable t : ThingRepository.t store.
Variable c : ChannelRepository.t store.

(** With both caches positive the service answers from them alone and
    leaves the store as it is, whatever its repositories are. *)
Lemma CanAccess_positive chanID key id s :
  positive chanID key id s ->
  CanAccess (cached u t c) chanID key s =
    ((id, None), s,
     [ThingCacheID key (id, None); ChannelCacheHasThing chanID id true]).
Proof.
  intros [Hkey Hmem]. rewrite CanAccess_eq, hasThing_eq. cbn.
  unfold keyCache_ID. rewrite Hkey. cbn.
  by rewrite bool_decide_eq_true_2.
Qed.

(** A successful [CanAccess] leaves both caches positive for what it
    returned. *)
Lemma CanAccess_ok_positive chanID key id s :
  value (CanAccess (cached u t c) chanID key s) = (id, None) ->
  positive chanID key id (world (CanAccess (cached u t c) chanID key s)).
Proof.
  unfold value, world. rewrite CanAccess_eq, hasThing_eq. cbn.
  unfold keyCache_ID. destruct (keyCache s !! key) as [id0|] eqn:Hkey; cbn.
  - case_bool_decide as Hmem; cbn.
    + intros [= ->]. by split.
    + destruct (ChannelRepository.HasThing c chanID key s) as [[id' [e|]] s2];
        cbn; [done|].
      intros [= ->]. split; cbn.
      * apply lookup_insert_eq.
      * unfold members. rewrite lookup_insert_eq. cbn. set_solver.
  - destruct (ChannelRepository.HasThing c chanID key s) as [[id' [e|]] s2];
      cbn; [done|].
    intros [= ->]. split; cbn.
    + apply lookup_insert_eq.
    + unfold members. rewrite lookup_insert_eq. cbn. set_solver.
Qed.



End ReferenceCaches.

(** A key that no stored device carries is not found by the repository. *)
Lemma find_by_key_absent key s :
  ~ key_in_repository key s -> find_by_key key (devices (repo s)) = None.
Proof.
  intros Habs. unfold find_by_key.
  destruct (find _ (devices (repo s))) as [d|] eqn:Hfind; [|done].
  apply find_some in Hfind as [Hin Hkey]. apply bool_decide_eq_true in Hkey.
  destruct Habs. exists d. split; [by apply list_elem_of_In | done].
Qed.

(** Absence of a key, checked device by device. *)
Lemma key_absent_check key s :
  forallb (fun d => negb (bool_decide (devKey d = key))) (devices (repo s)) = true ->
  ~ key_in_repository key s.
Proof.
  rewrite forallb_forall. intros Hall (d & Hin & Hkey).
  apply list_elem_of_In in Hin. specialize (Hall d Hin).
  apply negb_true_iff, bool_decide_eq_false in Hall. done.
Qed.


(** C6, on the reference caches: after a [CanAccess] that succeeded with
    device [id], the same request on the store it left behind succeeds with
    the same [id] whatever has become of the repository and whatever the
    repositories and users service now do (so also when every repository
    call fails): it is answered by the two cache lookups, which the first
    call left positive, and no repository is called. *)
Theorem CanAccess_warm_after_success
    (u u' : UsersServiceClient.t store) (t t' : ThingRepository.t store)
    (c c' : ChannelRepository.t store) chanID key id s (r : Repository) :
  value (CanAccess (cached u t c) chanID key s) = (id, None) ->
  let s2 := with_repo r (world (CanAccess (cached u t c) chanID key s)) in
  CanAccess (cached u' t' c') chanID key s2 =
    ((id, None), s2,
     [ThingCacheID key (id, None); ChannelCacheHasThing chanID id true])
  /\ Forall (fun e => is_repo_call e = false)
       (trace (CanAccess (cached u' t' c') chanID key s2)).
Proof.
  intros Hok s2.
  assert (positive chanID key id s2) as Hpos.
  { apply (CanAccess_ok_positive u t c chanID key id s Hok). }
  rewrite (CanAccess_positive u' t' c' chanID key id s2 Hpos).
  split; [done|]. by repeat constructor.
Qed.

Lemma CanAccess_warm_after_success_witness :
  CanAccess svc "c1" "k1" (unplug warm) =
    (("d1", None), unplug warm,
     [ThingCacheID "k1" ("d1", None); ChannelCacheHasThing "c1" "d1" true])
  /\ Forall (fun e => is_repo_call e = false)
       (trace (CanAccess svc "c1" "k1" (unplug warm))).
Proof.
  apply (CanAccess_warm_after_success modelUsers modelUsers
           modelThings modelThings modelChannels modelChannels
           "c1" "k1" "d1" cold
           {| reachable := false; devices := devices (repo warm);
              chans := chans (repo warm) |}).
  vm_compute; reflexivity.
Defined.




(** C4 as the code has it, on the reference caches: for a key that no
    device in the repository carries, [Identify] returns
    [ErrUnauthorizedAccess] when the thing cache has no entry for the key,
    and returns the cached identifier, without asking the repository, when
    it has one. *)
Theorem Identify_unknown_key key s :
  ~ key_in_repository key s ->
  (keyCache s !! key = None ->
     value (Identify svc key s) = ("", Some ErrUnauthorizedAccess)
     /\ world (Identify svc key s) = s)
  /\ (forall id, keyCache s !! key = Some id ->
     Identify svc key s = ((id, None), s, [ThingCacheID key (id, None)])).
Proof.
  intros Habs. split.
  - intros Hmiss. unfold value, world. rewrite Identify_eq. cbn.
    unfold keyCache_ID. rewrite Hmiss. cbn.
    unfold things_RetrieveByKey, if_reachable.
    rewrite (find_by_key_absent key s Habs).
    by destruct (reachable (repo s)).
  - intros id Hhit. rewrite Identify_eq. cbn.
    unfold keyCache_ID. by rewrite Hhit.
Qed.

Lemma Identify_unknown_key_witness :
  (value (Identify svc "k9" cold) = ("", Some ErrUnauthorizedAccess)
   /\ world (Identify svc "k9" cold) = cold)
  /\ Identify svc "k1" rotated =
       (("d1", None), rotated, [ThingCacheID "k1" ("d1", None)]).
Proof.
  split.
  - apply (proj1 (Identify_unknown_key "k9" cold
                    (key_absent_check "k9" cold eq_refl))).
    vm_compute; reflexivity.
  - apply (proj2 (Identify_unknown_key "k1" rotated
                    (key_absent_check "k1" rotated eq_refl))).
    vm_compute; reflexivity.
Defined.

(** C4 as stated fails: after "k1" was resolved once and the key of "d1"
    was rotated to "k2", no device in the repository carries "k1" and the
    repository no longer finds it, yet [Identify "k1"] still answers "d1"
    from the thing cache, where the same store with a cold thing cache
    answers [ErrUnauthorizedAccess]. *)
Lemma Identify_unknown_key_counterexample :
  (things_RetrieveByKey "k1" rotated).1 = ("", Some ErrNotFound)
  /\ value (Identify svc "k1" (with_keyCache ∅ rotated))
     = ("", Some ErrUnauthorizedAccess)
  /\ ~ (forall (s : store) key,
          ~ key_in_repository key s ->
          value (Identify svc key s) = ("", Some ErrUnauthorizedAccess)).
Proof.
  split; [by vm_compute|]. split; [by vm_compute|].
  intros Hclaim.
  specialize (Hclaim rotated "k1" (key_absent_check "k1" rotated eq_refl)).
  assert (value (Identify svc "k1" rotated) = ("d1", None)) as Hval
      by (vm_compute; reflexivity).
  rewrite Hval in Hclaim. discriminate Hclaim.
Qed.

(** * Further properties of the service *)

(** ** Paths that leave the caches alone *)

(** Unfold an owner-facing logged method and split on what the users service
    answered. *)
Ltac owner_call_cases op :=
  unfold op, identify, bind, call, ret, value, world, trace;
  match goal with
  | |- context [UsersServiceClient.Identify ?u ?tok ?w] =>
      destruct (UsersServiceClient.Identify u tok w) as [[? [?|]] ?] eqn:?; cbn
  end.

(** X1: [UpdateKey] calls the users service and, for an identified token,
    [things.UpdateKey] with the identified owner, and nothing else: it
    makes no call to either cache, so a rotated key's entry stays in the
    thing cache; whatever the users service and the repository leave
    unchanged is unchanged by it.  A refused token gives
    [ErrUnauthorizedAccess] without a repository call. *)
Theorem UpdateKey_leaves_caches {W} (ts : thingsService W) token id key w :
  Forall (fun e => is_cache_call e = false) (trace (UpdateKey ts token id key w))
  /\ (forall res e w1,
        UsersServiceClient.Identify (users ts) token w = ((res, Some e), w1) ->
        UpdateKey ts token id key w
        = (Some ErrUnauthorizedAccess, w1, [UsersIdentify token (res, Some e)]))
  /\ (forall owner w1,
        UsersServiceClient.Identify (users ts) token w = ((owner, None), w1) ->
        value (UpdateKey ts token id key w)
        = (ThingRepository.UpdateKey (things ts) owner id key w1).1)
  /\ (forall (V : Type) (view : W -> V),
        (forall tok w, view (UsersServiceClient.Identify (users ts) tok w).2 = view w) ->
        (forall o i k w, view (ThingRepository.UpdateKey (things ts) o i k w).2 = view w) ->
        view (world (UpdateKey ts token id key w)) = view w).
Proof.
  split; [|split; [|split]].
  - owner_call_cases @UpdateKey; [by repeat constructor|].
    destruct (ThingRepository.UpdateKey _ _ id key _); by repeat constructor.
  - intros res e w1 Hu. unfold UpdateKey, identify, bind, call, ret.
    by rewrite Hu.
  - intros owner w1 Hu. unfold UpdateKey, identify, bind, call, ret, value.
    rewrite Hu. cbn. by destruct (ThingRepository.UpdateKey _ owner id key w1).
  - intros V view Husers Hrepo.
    unfold UpdateKey, identify, bind, call, ret, world.
    pose proof (Husers token w) as E1.
    destruct (UsersServiceClient.Identify _ token w) as [[owner [e|]] w1]; cbn in *;
      [done|].
    pose proof (Hrepo owner id key w1) as E2.
    destruct (ThingRepository.UpdateKey _ owner id key w1); cbn in *. congruence.
Qed.

Lemma UpdateKey_leaves_caches_witness :
  UpdateKey svc "bad" "d1" "k2" warm
  = (Some ErrUnauthorizedAccess, warm,
     [UsersIdentify "bad" ("", Some ErrUnauthorizedAccess)])
  /\ value (UpdateKey svc "tok" "d1" "k2" warm)
     = (things_UpdateKey "alice" "d1" "k2" warm).1
  /\ caches (world (UpdateKey svc "tok" "d1" "k2" warm)) = caches warm.
Proof.
  destruct (UpdateKey_leaves_caches svc "bad" "d1" "k2" warm) as (_ & Hbad & _).
  destruct (UpdateKey_leaves_caches svc "tok" "d1" "k2" warm) as (_ & _ & Hok & Hview).
  split; [|split].
  - apply (Hbad "" ErrUnauthorizedAccess warm). vm_compute; reflexivity.
  - apply (Hok "alice" warm). vm_compute; reflexivity.
  - apply (Hview _ caches).
    + intros tok s. cbn. unfold users_Identify. by destruct (sessions s !! tok).
    + intros o i k s. cbn. unfold things_UpdateKey, if_reachable.
      destruct (reachable (repo s)); [|done].
      destruct (existsb _ _); [|done].
      by destruct (find_by_key k (devices (repo s))).
Defined.

(** X2: [Connect] calls the users service and, for an identified token,
    [channels.Connect] with the identified owner, and nothing else: it
    makes no call to either cache (a new connection is cached only by the
    first [CanAccess] that finds it), and whatever the users service and
    the repository leave unchanged is unchanged by it.  A refused token
    gives [ErrUnauthorizedAccess] without a repository call. *)
Theorem Connect_leaves_caches {W} (ts : thingsService W) token chanID thingID w :
  Forall (fun e => is_cache_call e = false) (trace (Connect ts token chanID thingID w))
  /\ (forall res e w1,
        UsersServiceClient.Identify (users ts) token w = ((res, Some e), w1) ->
        Connect ts token chanID thingID w
        = (Some ErrUnauthorizedAccess, w1, [UsersIdentify token (res, Some e)]))
  /\ (forall owner w1,
        UsersServiceClient.Identify (users ts) token w = ((owner, None), w1) ->
        value (Connect ts token chanID thingID w)
        = (ChannelRepository.Connect (channels ts) owner chanID thingID w1).1)
  /\ (forall (V : Type) (view : W -> V),
        (forall tok w, view (UsersServiceClient.Identify (users ts) tok w).2 = view w) ->
        (forall o c t w, view (ChannelRepository.Connect (channels ts) o c t w).2 = view w) ->
        view (world (Connect ts token chanID thingID w)) = view w).
Proof.
  split; [|split; [|split]].
  - owner_call_cases @Connect; [by repeat constructor|].
    destruct (ChannelRepository.Connect _ _ chanID thingID _); by repeat constructor.
  - intros res e w1 Hu. unfold Connect, identify, bind, call, ret.
    by rewrite Hu.
  - intros owner w1 Hu. unfold Connect, identify, bind, call, ret, value.
    rewrite Hu. cbn.
    by destruct (ChannelRepository.Connect _ owner chanID thingID w1).
  - intros V view Husers Hrepo.
    unfold Connect, identify, bind, call, ret, world.
    pose proof (Husers token w) as E1.
    destruct (UsersServiceClient.Identify _ token w) as [[owner [e|]] w1]; cbn in *;
      [done|].
    pose proof (Hrepo owner chanID thingID w1) as E2.
    destruct (ChannelRepository.Connect _ owner chanID thingID w1); cbn in *.
    congruence.
Qed.

Lemma Connect_leaves_caches_witness :
  Connect svc "bad" "c1" "d1" cold
  = (Some ErrUnauthorizedAccess, cold,
     [UsersIdentify "bad" ("", Some ErrUnauthorizedAccess)])
  /\ value (Connect svc "tok" "c1" "d1" cold)
     = (channels_Connect "alice" "c1" "d1" cold).1
  /\ caches (world (Connect svc "tok" "c1" "d1" cold)) = caches cold.
Proof.
  destruct (Connect_leaves_caches svc "bad" "c1" "d1" cold) as (_ & Hbad & _).
  destruct (Connect_leaves_caches svc "tok" "c1" "d1" cold) as (_ & _ & Hok & Hview).
  split; [|split].
  - apply (Hbad "" ErrUnauthorizedAccess cold). vm_compute; reflexivity.
  - apply (Hok "alice" cold). vm_compute; reflexivity.
  - apply (Hview _ caches).
    + intros tok s. cbn. unfold users_Identify. by destruct (sessions s !! tok).
    + intros o c t s. cbn. unfold channels_Connect, if_reachable, update_channel.
      destruct (reachable (repo s)); [|done].
      destruct (existsb _ _); [|done].
      destruct (chans (repo s) !! c); [|done]. by case_bool_decide.
Defined.

(** ** Footprint of the read path *)

(** X3: whatever the collaborators do, [CanAccess] only ever looks up and
    saves its own key in the thing cache, looks up and connects on its own
    channel in the channel cache, and asks [channels.HasThing] for its own
    channel and key: it never calls the users service, never removes a
    cache entry, never mutates a repository.  It makes at most one
    repository call, and none exactly when the cache step [hasThing] is
    positive. *)
Theorem CanAccess_footprint {W} (ts : thingsService W) chanID key w :
  Forall (authorizes chanID key) (trace (CanAccess ts chanID key w))
  /\ repo_calls (trace (CanAccess ts chanID key w)) <= 1
  /\ (repo_calls (trace (CanAccess ts chanID key w)) = 0
      <-> (value (hasThing ts chanID key w)).2 = None).
Proof.
  unfold repo_calls, value, trace. split; [|split].
  - read_path_cases; by repeat constructor.
  - read_path_cases; lia.
  - read_path_cases; split; intros; by simplify_eq.
Qed.

(** X4: whatever the collaborators do, [Identify] only ever looks up and
    saves its own key in the thing cache and asks [things.RetrieveByKey]
    for its own key: it never calls the users service, the channel cache or
    the channel repository.  It makes at most one repository call, and
    none exactly when the thing cache answered without error. *)
Theorem Identify_footprint {W} (ts : thingsService W) key w :
  Forall (resolves key) (trace (Identify ts key w))
  /\ repo_calls (trace (Identify ts key w)) <= 1
  /\ (repo_calls (trace (Identify ts key w)) = 0
      <-> (ThingCache.ID (thingCache ts) key w).1.2 = None).
Proof.
  unfold repo_calls, trace. split; [|split].
  - read_path_cases; by repeat constructor.
  - read_path_cases; lia.
  - read_path_cases; split; intros; by simplify_eq.
Qed.

(** X5: when the cache step is not positive and the repository confirms
    the connection, [CanAccess] returns exactly the identifier
    [channels.HasThing] returned, with no error, whether or not the two
    cache writes that follow succeed: a failing cache cannot turn a
    repository confirmation into a denial. *)
Theorem CanAccess_fallback_result {W} (ts : thingsService W) chanID key w e id w2 :
  (value (hasThing ts chanID key w)).2 = Some e ->
  ChannelRepository.HasThing (channels ts) chanID key (world (hasThing ts chanID key w))
  = ((id, None), w2) ->
  value (CanAccess ts chanID key w) = (id, None)
  /\ world (CanAccess ts chanID key w)
     = (ChannelCache.Connect (channelCache ts) chanID id
          (ThingCache.Save (thingCache ts) key id w2).2).2.
Proof.
  unfold value, world. rewrite CanAccess_eq.
  destruct (hasThing ts chanID key w) as [[[thingID [e0|]] w1] l1]; cbn; [|done].
  intros _ ->. cbn.
  destruct (ThingCache.Save _ key id w2) as [s1 w3]. cbn.
  by destruct (ChannelCache.Connect _ chanID id w3) as [s2 w4].
Qed.

Lemma CanAccess_fallback_result_witness :
  value (CanAccess svc "c1" "k1" cold) = ("d1", None)
  /\ world (CanAccess svc "c1" "k1" cold)
     = (membership_Connect "c1" "d1" (keyCache_Save "k1" "d1" cold).2).2.
Proof.
  apply (CanAccess_fallback_result svc "c1" "k1" cold ErrNotFound "d1" cold);
    vm_compute; reflexivity.
Defined.

(** X6: [CanAccess] and [Identify] resolve a key through the same cache
    lookup: whenever the cache step of [CanAccess] is positive, both return
    the same identifier without error on that world. *)
Theorem CanAccess_agrees_with_Identify {W} (ts : thingsService W) chanID key w :
  (value (hasThing ts chanID key w)).2 = None ->
  value (CanAccess ts chanID key w) = value (Identify ts key w)
  /\ (value (Identify ts key w)).2 = None.
Proof.
  unfold value. read_path_cases; intros; by simplify_eq.
Qed.

Lemma CanAccess_agrees_with_Identify_witness :
  value (CanAccess svc "c1" "k1" warm) = value (Identify svc "k1" warm)
  /\ (value (Identify svc "k1" warm)).2 = None.
Proof.
  apply (CanAccess_agrees_with_Identify svc "c1" "k1" warm).
  vm_compute; reflexivity.
Defined.

(** ** Repeated requests on caches that read back what they stored *)

(** X7: if the thing cache answers a key it has just saved with the saved
    identifier, and repeats a hit when asked again, then after an
    [Identify] that succeeded with [id] the next [Identify] of the same key
    returns [id] from the cache alone, whatever the repositories then do. *)
Theorem Identify_warm_after_success {W} (ts ts' : thingsService W) key id w :
  thingCache ts' = thingCache ts ->
  (forall k v w0, (ThingCache.ID (thingCache ts) k
                     (ThingCache.Save (thingCache ts) k v w0).2).1 = (v, None)) ->
  (forall k v w0 w1, ThingCache.ID (thingCache ts) k w0 = ((v, None), w1) ->
                     (ThingCache.ID (thingCache ts) k w1).1 = (v, None)) ->
  value (Identify ts key w) = (id, None) ->
  value (Identify ts' key (world (Identify ts key w))) = (id, None)
  /\ repo_calls (trace (Identify ts' key (world (Identify ts key w)))) = 0.
Proof.
  intros Hsame Hsaved Hhit.
  assert (forall w1, (ThingCache.ID (thingCache ts) key w1).1 = (id, None) ->
            value (Identify ts' key w1) = (id, None)
            /\ repo_calls (trace (Identify ts' key w1)) = 0) as Hnext.
  { intros w1 Hw1. unfold value, trace, repo_calls. rewrite Identify_eq, Hsame.
    destruct (ThingCache.ID (thingCache ts) key w1) as [r w2]. cbn in Hw1.
    by subst r. }
  unfold value, world at 1 2. rewrite (Identify_eq ts).
  destruct (ThingCache.ID (thingCache ts) key w) as [[id0 [e|]] w1] eqn:Hid; cbn.
  - destruct (ThingRepository.RetrieveByKey (things ts) key w1)
      as [[id' [e'|]] w2]; cbn; [done|].
    pose proof (Hsaved key id' w2) as Hs.
    destruct (ThingCache.Save (thingCache ts) key id' w2) as [s1 w3]. cbn in *.
    intros [= ->]. by apply Hnext.
  - intros [= ->]. apply Hnext. by apply (Hhit key id w w1).
Qed.

Lemma Identify_warm_after_success_witness :
  value (Identify svc "k1" (world (Identify svc "k1" cold))) = ("d1", None)
  /\ repo_calls (trace (Identify svc "k1" (world (Identify svc "k1" cold)))) = 0.
Proof.
  apply (Identify_warm_after_success svc svc "k1" "d1" cold).
  - reflexivity.
  - intros k v s. cbn. unfold keyCache_ID. cbn. by rewrite lookup_insert_eq.
  - intros k v s s1. cbn. unfold keyCache_ID.
    destruct (keyCache s !! k) eqn:Hk; intros [= <- <-]. by rewrite Hk.
  - vm_compute; reflexivity.
Defined.

(** X8: if the two caches repeat a positive pair of lookups when asked
    again, and answer positively right after [thingCache.Save] and
    [channelCache.Connect] stored a pair, then after a [CanAccess] that
    succeeded with [id] the next [CanAccess] for the same channel and key
    returns [id] from the caches alone, whatever the repositories then
    do. *)
Theorem CanAccess_idempotent_on_lawful_caches {W} (ts ts' : thingsService W)
    chanID key id w :
  thingCache ts' = thingCache ts ->
  channelCache ts' = channelCache ts ->
  (forall k c v w0 w1 w2,
      ThingCache.ID (thingCache ts) k w0 = ((v, None), w1) ->
      ChannelCache.HasThing (channelCache ts) c v w1 = (true, w2) ->
      exists w3 w4,
        ThingCache.ID (thingCache ts) k w2 = ((v, None), w3)
        /\ ChannelCache.HasThing (channelCache ts) c v w3 = (true, w4)) ->
  (forall k c v w0,
      exists w3 w4,
        ThingCache.ID (thingCache ts) k
          (ChannelCache.Connect (channelCache ts) c v
             (ThingCache.Save (thingCache ts) k v w0).2).2 = ((v, None), w3)
        /\ ChannelCache.HasThing (channelCache ts) c v w3 = (true, w4)) ->
  value (CanAccess ts chanID key w) = (id, None) ->
  value (CanAccess ts' chanID key (world (CanAccess ts chanID key w))) = (id, None)
  /\ repo_calls (trace (CanAccess ts' chanID key (world (CanAccess ts chanID key w)))) = 0.
Proof.
  intros Htc Hcc Hrepeat Hstored.
  assert (forall w2 w3 w4,
            ThingCache.ID (thingCache ts) key w2 = ((id, None), w3) ->
            ChannelCache.HasThing (channelCache ts) chanID id w3 = (true, w4) ->
            value (CanAccess ts' chanID key w2) = (id, None)
            /\ repo_calls (trace (CanAccess ts' chanID key w2)) = 0) as Hnext.
  { intros w2 w3 w4 Hid Hhas. unfold value, trace, repo_calls.
    rewrite CanAccess_eq, hasThing_eq, Htc, Hcc, Hid. cbn. by rewrite Hhas. }
  unfold value, world at 1 2. rewrite (CanAccess_eq ts), (hasThing_eq ts).
  destruct (ThingCache.ID (thingCache ts) key w) as [[id0 [e|]] w1] eqn:Hid; cbn.
  - destruct (ChannelRepository.HasThing (channels ts) chanID key w1)
      as [[id' [e'|]] w2]; cbn; [done|].
    destruct (Hstored key chanID id' w2) as (w5 & w6 & H5 & H6).
    destruct (ThingCache.Save (thingCache ts) key id' w2) as [s1 w3]. cbn in *.
    destruct (ChannelCache.Connect (channelCache ts) chanID id' w3) as [s2 w4].
    cbn in *. intros [= ->]. by apply (Hnext w4 w5 w6).
  - destruct (ChannelCache.HasThing (channelCache ts) chanID id0 w1)
      as [[] w2] eqn:Hhas; cbn.
    + intros [= ->].
      destruct (Hrepeat key chanID id w w1 w2 Hid Hhas) as (w3 & w4 & H3 & H4).
      by apply (Hnext w2 w3 w4).
    + destruct (ChannelRepository.HasThing (channels ts) chanID key w2)
        as [[id' [e'|]] w3]; cbn; [done|].
      destruct (Hstored key chanID id' w3) as (w6 & w7 & H6 & H7).
      destruct (ThingCache.Save (thingCache ts) key id' w3) as [s1 w4]. cbn in *.
      destruct (ChannelCache.Connect (channelCache ts) chanID id' w4) as [s2 w5].
      cbn in *. intros [= ->]. by apply (Hnext w5 w6 w7).
Qed.

Lemma CanAccess_idempotent_on_lawful_caches_witness :
  value (CanAccess svc "c1" "k1" (world (CanAccess svc "c1" "k1" cold))) = ("d1", None)
  /\ repo_calls (trace (CanAccess svc "c1" "k1" (world (CanAccess svc "c1" "k1" cold)))) = 0.
Proof.
  apply (CanAccess_idempotent_on_lawful_caches svc svc "c1" "k1" "d1" cold).
  - reflexivity.
  - reflexivity.
  - intros k c v s s1 s2. cbn. unfold keyCache_ID, membership_HasThing.
    destruct (keyCache s !! k) eqn:Hk; intros [= <- <-] [= Hmem <-].
    exists s, s. rewrite Hk. by rewrite Hmem.
  - intros k c v s. cbn. unfold keyCache_ID, membership_HasThing. cbn.
    rewrite lookup_insert_eq. eexists _, _. split; [done|].
    f_equal. apply bool_decide_eq_true_2. cbn.
    unfold members. rewrite lookup_insert_eq. cbn. set_solver.
  - vm_compute; reflexivity.
Defined.

(** ** The owner-facing paths *)

Section OwnerPathProperties.
Context {W P Q TP CP : Type}.
Variable os : ownerService W P Q TP CP.

(** X9: a thing that fails [Validate] is rejected with
    [ErrMalformedEntity] by [AddThing] and [UpdateThing] before anything
    else happens: the token is not even looked at, and no collaborator is
    called (the world is returned as it was). *)
Theorem invalid_thing_rejected_first token thing w e :
  Validate os thing = Some e ->
  AddThing os token thing w = ((zeroThing os, Some ErrMalformedEntity), w)
  /\ UpdateThing os token thing w = (Some ErrMalformedEntity, w).
Proof.
  intros Hbad. unfold AddThing, UpdateThing. by rewrite Hbad.
Qed.

(** X10: when the users service refuses the token, every create, update,
    view and list method answers [ErrUnauthorizedAccess] with the zero
    value of its result, and the world is the one the users service left:
    no repository and no identity provider is called. *)
Theorem refused_token_owner_paths token res e w w1 thing channel id name
    (offset limit : N) :
  UsersServiceClient.Identify (users (base os)) token w = ((res, Some e), w1) ->
  (Validate os thing = None ->
     AddThing os token thing w = ((zeroThing os, Some ErrUnauthorizedAccess), w1))
  /\ (Validate os thing = None ->
     UpdateThing os token thing w = (Some ErrUnauthorizedAccess, w1))
  /\ ViewThing os token id w = ((zeroThing os, Some ErrUnauthorizedAccess), w1)
  /\ ListThings os token offset limit name w
     = ((zeroTP os, Some ErrUnauthorizedAccess), w1)
  /\ ListThingsByChannel os token id offset limit w
     = ((zeroTP os, Some ErrUnauthorizedAccess), w1)
  /\ CreateChannel os token channel w
     = ((zeroChannel os, Some ErrUnauthorizedAccess), w1)
  /\ UpdateChannel os token channel w = (Some ErrUnauthorizedAccess, w1)
  /\ ViewChannel os token id w = ((zeroChannel os, Some ErrUnauthorizedAccess), w1)
  /\ ListChannels os token offset limit name w
     = ((zeroCP os, Some ErrUnauthorizedAccess), w1)
  /\ ListChannelsByThing os token id offset limit w
     = ((zeroCP os, Some ErrUnauthorizedAccess), w1).
Proof.
  intros Hu.
  unfold AddThing, UpdateThing, ViewThing, ListThings, ListThingsByChannel,
    CreateChannel, UpdateChannel, ViewChannel, ListChannels, ListChannelsByThing,
    sbind, sret, whois.
  split; [intros ->; by rewrite Hu|]. split; [intros ->; by rewrite Hu|].
  by rewrite Hu.
Qed.

(** X11: what a successful [AddThing] returns.  The thing passed
    [Validate]; its owner is the identity the users service returned for
    the token; its key is the caller's when that is not empty and otherwise
    a second identifier drawn from the identity provider; its identifier is
    the one [things.Save] returned for the thing saved under the identity
    provider's identifier; the rest of the thing is the caller's. *)
Theorem AddThing_success token thing w th' w' :
  AddThing os token thing w = ((th', None), w') ->
  exists owner w1 id1 w2 key w3 id2,
    Validate os thing = None
    /\ UsersServiceClient.Identify (users (base os)) token w = ((owner, None), w1)
    /\ IdentityProvider.ID (idp os) w1 = ((id1, None), w2)
    /\ (if bool_decide (Thing.Key thing = "")
        then IdentityProvider.ID (idp os) w2 = ((key, None), w3)
        else key = Thing.Key thing /\ w3 = w2)
    /\ ThingStore.Save (thingStore os) (Thing.mk id1 owner key (Thing.rest thing)) w3
       = ((id2, None), w')
    /\ th' = Thing.mk id2 owner key (Thing.rest thing).
Proof.
  unfold AddThing, sbind, sret, whois.
  destruct (Validate os thing) eqn:Hv; [done|].
  destruct (UsersServiceClient.Identify _ token w) as [[owner [e|]] w1] eqn:Hu;
    [done|].
  destruct (IdentityProvider.ID (idp os) w1) as [[id1 [e|]] w2] eqn:Hid1; [done|].
  cbn [Thing.with_Owner Thing.with_ID Thing.Key Thing.ID Thing.Owner Thing.rest].
  destruct (bool_decide (Thing.Key thing = "")) eqn:Hkey.
  - destruct (IdentityProvider.ID (idp os) w2) as [[key [e|]] w3] eqn:Hid2; [done|].
    cbn [Thing.with_Key Thing.Key Thing.ID Thing.Owner Thing.rest].
    destruct (ThingStore.Save _ _ w3) as [[id2 [e|]] w4] eqn:Hsave; [done|].
    intros [= <- <-]. by exists owner, w1, id1, w2, key, w3, id2.
  - destruct (ThingStore.Save _ _ w2) as [[id2 [e|]] w4] eqn:Hsave; [done|].
    intros [= <- <-]. by exists owner, w1, id1, w2, (Thing.Key thing), w2, id2.
Qed.

(** X12: when [AddThing] fails it returns the zero [Thing], and its error
    is [ErrMalformedEntity] for a thing that fails [Validate],
    [ErrUnauthorizedAccess] for a token the users service refuses, and
    otherwise exactly the error that the identity provider or
    [things.Save] returned: these are passed on as they are, not folded
    into [ErrUnauthorizedAccess]. *)
Theorem AddThing_failure token thing w e :
  (AddThing os token thing w).1.2 = Some e ->
  (AddThing os token thing w).1.1 = zeroThing os
  /\ ((e = ErrMalformedEntity /\ Validate os thing <> None)
      \/ (e = ErrUnauthorizedAccess
          /\ (UsersServiceClient.Identify (users (base os)) token w).1.2 <> None)
      \/ (exists w0, (IdentityProvider.ID (idp os) w0).1.2 = Some e)
      \/ (exists th w0, (ThingStore.Save (thingStore os) th w0).1.2 = Some e)).
Proof.
  unfold AddThing, sbind, sret, whois.
  destruct (Validate os thing); cbn; [intros [= <-]; split; [done|by left]|].
  destruct (UsersServiceClient.Identify _ token w) as [[owner [e0|]] w1]; cbn;
    [intros [= <-]; split; [done|by right; left]|].
  destruct (IdentityProvider.ID (idp os) w1) as [[id1 [e0|]] w2] eqn:Hid1; cbn.
  { intros [= <-]. split; [done|]. right; right; left. exists w1. by rewrite Hid1. }
  destruct (bool_decide (Thing.Key thing = "")).
  - destruct (IdentityProvider.ID (idp os) w2) as [[key [e0|]] w3] eqn:Hid2; cbn.
    { intros [= <-]. split; [done|]. right; right; left. exists w2. by rewrite Hid2. }
    destruct (ThingStore.Save _ _ w3) as [[id2 [e0|]] w4] eqn:Hsave; cbn; [|done].
    intros [= <-]. split; [done|]. do 3 right. eexists _, w3. by rewrite Hsave.
  - cbn. destruct (ThingStore.Save _ _ w2) as [[id2 [e0|]] w4] eqn:Hsave; cbn; [|done].
    intros [= <-]. split; [done|]. do 3 right. eexists _, w2. by rewrite Hsave.
Qed.

(** X13: what [CreateChannel] returns.  On success the channel's owner is
    the identity the users service returned for the token, its identifier
    is the one [channels.Save] returned for the channel saved under the
    identity provider's identifier, and the rest is the caller's; on
    failure the result is the zero [Channel]. *)
Theorem CreateChannel_outcome token channel w :
  (forall ch' w',
      CreateChannel os token channel w = ((ch', None), w') ->
      exists owner w1 id1 w2 id2,
        UsersServiceClient.Identify (users (base os)) token w = ((owner, None), w1)
        /\ IdentityProvider.ID (idp os) w1 = ((id1, None), w2)
        /\ ChannelStore.Save (channelStore os) (Channel.mk id1 owner (Channel.rest channel)) w2
           = ((id2, None), w')
        /\ ch' = Channel.mk id2 owner (Channel.rest channel))
  /\ (forall e, (CreateChannel os token channel w).1.2 = Some e ->
        (CreateChannel os token channel w).1.1 = zeroChannel os).
Proof.
  unfold CreateChannel, sbind, sret, whois.
  destruct (UsersServiceClient.Identify _ token w) as [[owner [e0|]] w1] eqn:Hu;
    [done|].
  destruct (IdentityProvider.ID (idp os) w1) as [[id1 [e0|]] w2] eqn:Hid1; [done|].
  cbn [Channel.with_Owner Channel.with_ID Channel.ID Channel.Owner Channel.rest].
  destruct (ChannelStore.Save _ _ w2) as [[id2 [e0|]] w3] eqn:Hsave; [done|].
  split; [|done].
  intros ch' w' [= <- <-]. by exists owner, w1, id1, w2, id2.
Qed.

(** X14: the identifier and owner a caller writes into a channel count
    for nothing: [CreateChannel] replaces both and [UpdateChannel]
    replaces the owner by the identity behind the token, so a caller
    cannot create or update a channel in another owner's name. *)
Theorem channel_owner_from_token token channel id owner w :
  CreateChannel os token (Channel.with_ID id (Channel.with_Owner owner channel)) w
  = CreateChannel os token channel w
  /\ UpdateChannel os token (Channel.with_Owner owner channel) w
     = UpdateChannel os token channel w.
Proof. done. Qed.

(** X15: likewise for things, as far as [Validate] does not tell the two
    apart: [AddThing] replaces the identifier and owner the caller wrote,
    and [UpdateThing] the owner, by the identity provider's identifier and
    the identity behind the token. *)
Theorem thing_owner_from_token token thing id owner w :
  (Validate os (Thing.with_ID id (Thing.with_Owner owner thing)) = Validate os thing ->
     AddThing os token (Thing.with_ID id (Thing.with_Owner owner thing)) w
     = AddThing os token thing w)
  /\ (Validate os (Thing.with_Owner owner thing) = Validate os thing ->
     UpdateThing os token (Thing.with_Owner owner thing) w
     = UpdateThing os token thing w).
Proof.
  split; intros Hv; unfold AddThing, UpdateThing; by rewrite Hv.
Qed.

End OwnerPathProperties.

Lemma invalid_thing_rejected_first_witness :
  AddThing (owners sampleIdp) "nobody" (Thing.mk "" "" "k7" "") cold
  = ((Thing.zero "", Some ErrMalformedEntity), cold)
  /\ UpdateThing (owners sampleIdp) "nobody" (Thing.mk "" "" "k7" "") cold
     = (Some ErrMalformedEntity, cold).
Proof.
  apply (invalid_thing_rejected_first (owners sampleIdp) "nobody"
           (Thing.mk "" "" "k7" "") cold ErrMalformedEntity).
  vm_compute; reflexivity.
Defined.

Lemma refused_token_owner_paths_witness :
  ViewThing (owners sampleIdp) "bad" "d1" cold
  = ((Thing.zero "", Some ErrUnauthorizedAccess), cold)
  /\ ListThings (owners sampleIdp) "bad" 0 10 "" cold
     = (([], Some ErrUnauthorizedAccess), cold)
  /\ CreateChannel (owners sampleIdp) "bad" room cold
     = ((Channel.zero "", Some ErrUnauthorizedAccess), cold).
Proof.
  destruct (refused_token_owner_paths (owners sampleIdp) "bad" ""
              ErrUnauthorizedAccess cold cold sensor room "d1" "" 0%N 10%N)
    as (_ & _ & Hview & Hlist & _ & Hcreate & _).
  { vm_compute; reflexivity. }
  split; [exact Hview|]. split; [exact Hlist|exact Hcreate].
Defined.

Lemma AddThing_success_witness :
  exists owner w1 id1 w2 key w3 id2,
    sample_Validate sensor = None
    /\ users_Identify "tok" cold = ((owner, None), w1)
    /\ IdentityProvider.ID sampleIdp w1 = ((id1, None), w2)
    /\ (if bool_decide (Thing.Key sensor = "")
        then IdentityProvider.ID sampleIdp w2 = ((key, None), w3)
        else key = Thing.Key sensor /\ w3 = w2)
    /\ sample_Save (Thing.mk id1 owner key (Thing.rest sensor)) w3
       = ((id2, None), (AddThing (owners sampleIdp) "tok" sensor cold).2)
    /\ (AddThing (owners sampleIdp) "tok" sensor cold).1.1
       = Thing.mk id2 owner key (Thing.rest sensor).
Proof.
  apply (AddThing_success (owners sampleIdp) "tok" sensor cold).
  vm_compute; reflexivity.
Defined.

Lemma AddThing_failure_witness :
  (AddThing (owners brokenIdp) "tok" sensor cold).1.1 = Thing.zero ""
  /\ ((ErrOther "no identifier" = ErrMalformedEntity /\ sample_Validate sensor <> None)
      \/ (ErrOther "no identifier" = ErrUnauthorizedAccess
          /\ (users_Identify "tok" cold).1.2 <> None)
      \/ (exists w0, (IdentityProvider.ID brokenIdp w0).1.2
                     = Some (ErrOther "no identifier"))
      \/ (exists th w0, (sample_Save th w0).1.2 = Some (ErrOther "no identifier"))).
Proof.
  apply (AddThing_failure (owners brokenIdp) "tok" sensor cold
           (ErrOther "no identifier")).
  vm_compute; reflexivity.
Defined.

Lemma CreateChannel_outcome_witness :
  (exists owner w1 id1 w2 id2,
      users_Identify "tok" cold = ((owner, None), w1)
      /\ IdentityProvider.ID sampleIdp w1 = ((id1, None), w2)
      /\ sample_SaveChannel (Channel.mk id1 owner (Channel.rest room)) w2
         = ((id2, None), (CreateChannel (owners sampleIdp) "tok" room cold).2)
      /\ (CreateChannel (owners sampleIdp) "tok" room cold).1.1
         = Channel.mk id2 owner (Channel.rest room))
  /\ (CreateChannel (owners sampleIdp) "tok" room (unplug cold)).1.1 = Channel.zero "".
Proof.
  split.
  - apply (proj1 (CreateChannel_outcome (owners sampleIdp) "tok" room cold)).
    vm_compute; reflexivity.
  - apply (proj2 (CreateChannel_outcome (owners sampleIdp) "tok" room (unplug cold))
             ErrUnavailable).
    vm_compute; reflexivity.
Defined.

Lemma thing_owner_from_token_witness :
  AddThing (owners sampleIdp) "tok" keyed cold
  = AddThing (owners sampleIdp) "tok" (Thing.mk "" "" "k7" "app") cold
  /\ UpdateThing (owners sampleIdp) "tok" (Thing.mk "d1" "mallory" "k1" "device") cold
     = UpdateThing (owners sampleIdp) "tok" (Thing.mk "d1" "" "k1" "device") cold.
Proof.
  split.
  - apply (proj1 (thing_owner_from_token (owners sampleIdp) "tok"
                    (Thing.mk "" "" "k7" "app") "x" "mallory" cold)).
    reflexivity.
  - apply (proj2 (thing_owner_from_token (owners sampleIdp) "tok"
                    (Thing.mk "d1" "" "k1" "device") "x" "mallory" cold)).
    reflexivity.
Defined.
